(** * vuex-crud: the CRUD module builder and its action executor

    A shallow embedding of [src/package/src/Action.ts] (class [Action]) and of
    the module builder (classes [CrudModule] and [CrudModuleFactory]), with
    the properties of the specification stated and proved against it.

    JavaScript values are embedded as a first-order data type, exceptions as
    a sum type, the store, the object heap of builder instances and the
    sequence of observable calls (commits, HTTP requests, callbacks) as an
    explicit world that is threaded through the code.  The functions of the
    user (the callbacks, the mappers, the custom definition hook) return or
    throw.  What a value inherits and how an object converts to a string is
    given by a realm, over which the properties are stated. *)

From Stdlib Require Import ZArith Lia Ascii String.
From stdpp Require Import base option list strings gmap pretty.

Open Scope string_scope.

(** ** JavaScript values *)

Module JS.

(** The values that travel through the module: data as received from the
    HTTP layer or supplied by the caller, and the error objects that are
    thrown.

    A number is given by its string conversion, which determines it up to
    the sign of zero: the conversion, [===] and the truth value, the
    operations that the module applies to a number, are functions of it.  An
    object is given by its address, which is its identity, and by its own
    data members; the same object has the same members.  An array is given
    by the sequence of its elements, as the collection state that the
    mutations read and rebuild, and an error by its name and message: they
    carry no identity, and one that is compared with [===] (the id of an
    element that is itself an array, say) is given as an object.  Values are
    finite trees: an object does not contain itself. *)
#[warnings="-register-all"]
Inductive Value :=
| VUndefined
| VNull
| VBool (b : bool)
| VNum (shown : string)
| VStr (s : string)
| VArr (elems : list Value)
| VObj (address : positive) (fields : list (string * Value))
| VError (name message : string).

(** Normal completion with a value, or an exception carrying the thrown
    value. *)
Inductive Result (A : Type) :=
| Ok (a : A)
| Throw (e : Value).
Arguments Ok {A} a.
Arguments Throw {A} e.

Definition bindR {A B} (r : Result A) (k : A -> Result B) : Result B :=
  match r with
  | Ok a => k a
  | Throw e => Throw e
  end.

(** What the rest of the program and the engine decide for a value: the
    read of a member that is not an own data member (a member of the
    prototype chain, an accessor), which may throw, and the string
    conversion of an object, which runs its [toString] and may throw. *)
Class Realm := {
  beyond : Value -> string -> Result Value;
  convert : Value -> Result string
}.

(** [Boolean(v)], also the test of [if (v)] and [!v]. *)
Definition ToBoolean (v : Value) : bool :=
  match v with
  | VUndefined | VNull => false
  | VBool b => b
  | VNum shown => negb (String.eqb shown "0" || String.eqb shown "NaN")
  | VStr s => negb (String.eqb s "")
  | VArr _ | VObj _ _ | VError _ _ => true
  end.

(** [Array.isArray]. *)
Definition isArrayValue (v : Value) : bool :=
  match v with
  | VArr _ => true
  | _ => false
  end.

(** The string conversion of a template literal [`${v}`].  An array joins
    the conversions of its elements, [null] and [undefined] giving the empty
    string. *)
Fixpoint ToString `{Realm} (v : Value) : Result string :=
  match v with
  | VUndefined => Ok "undefined"
  | VNull => Ok "null"
  | VBool true => Ok "true"
  | VBool false => Ok "false"
  | VNum shown => Ok shown
  | VStr s => Ok s
  | VArr elems =>
      bindR
        ((fix each (l : list Value) : Result (list string) :=
            match l with
            | [] => Ok []
            | x :: rest =>
                bindR (match x with
                       | VUndefined | VNull => Ok ""
                       | _ => ToString x
                       end)
                  (fun s => bindR (each rest) (fun ss => Ok (s :: ss)))
            end) elems)
        (fun parts => Ok (String.concat "," parts))
  | VObj address fields => convert (VObj address fields)
  | VError name message =>
      Ok (if String.eqb name "" then message
          else if String.eqb message "" then name
          else name ++ ": " ++ message)
  end.

(** Equality of values as trees. *)
Fixpoint sameValue (a b : Value) : bool :=
  match a, b with
  | VUndefined, VUndefined => true
  | VNull, VNull => true
  | VBool x, VBool y => Bool.eqb x y
  | VNum x, VNum y => String.eqb x y
  | VStr x, VStr y => String.eqb x y
  | VArr l, VArr l' =>
      (fix all (l l' : list Value) : bool :=
         match l, l' with
         | [], [] => true
         | x :: r, y :: r' => sameValue x y && all r r'
         | _, _ => false
         end) l l'
  | VObj p f, VObj p' f' =>
      Pos.eqb p p'
      && (fix all (f f' : list (string * Value)) : bool :=
            match f, f' with
            | [], [] => true
            | (k, x) :: r, (k', y) :: r' => String.eqb k k' && sameValue x y && all r r'
            | _, _ => false
            end) f f'
  | VError n m, VError n' m' => String.eqb n n' && String.eqb m m'
  | _, _ => false
  end.

(** Strict equality [a === b]: equality of primitives of the same type,
    [NaN] being equal to nothing, and identity of objects; two values of
    different types are not equal.  Arrays and errors, which carry no
    identity, are taken to be distinct. *)
Definition strictEq (a b : Value) : bool :=
  match a, b with
  | VUndefined, VUndefined => true
  | VNull, VNull => true
  | VBool x, VBool y => Bool.eqb x y
  | VNum x, VNum y => String.eqb x y && negb (String.eqb x "NaN")
  | VStr x, VStr y => String.eqb x y
  | VObj p f, VObj p' f' => sameValue (VObj p f) (VObj p' f')
  | _, _ => false
  end.

Fixpoint ownField (k : string) (fields : list (string * Value)) : option Value :=
  match fields with
  | [] => None
  | (k', v) :: rest => if String.eqb k k' then Some v else ownField k rest
  end.

(** The array index that the property key [k] denotes, if any: the key has
    to be the canonical decimal form of an index below [len]. *)
Definition arrayIndex (k : string) (len : nat) : option nat :=
  List.find (fun i => String.eqb k (pretty i)) (seq 0 len).

Fixpoint chars (s : string) : list Value :=
  match s with
  | EmptyString => []
  | String c rest => VStr (String c EmptyString) :: chars rest
  end.

(** The own members of an array or a string: its length and its elements. *)
Definition indexed (k : string) (elems : list Value) : option Value :=
  if String.eqb k "length" then Some (VNum (pretty (length elems)))
  else (fun i => nth i elems VUndefined) <$> arrayIndex k (length elems).

Definition nullishName (v : Value) : string :=
  match v with
  | VNull => "null"
  | _ => "undefined"
  end.

Definition typeErrorRead (v : Value) (k : string) : Value :=
  VError "TypeError"
    ("Cannot read properties of " ++ nullishName v ++ " (reading '" ++ k ++ "')").

(** The own data member of a value under a key, if it has one. *)
Definition ownMember (v : Value) (k : string) : option Value :=
  match v with
  | VObj _ fields => ownField k fields
  | VArr elems => indexed k elems
  | VStr s => indexed k (chars s)
  | VError _ message => if String.eqb k "message" then Some (VStr message) else None
  | _ => None
  end.

(** The property read [v[k]]: a [TypeError] on [undefined] and [null]; the
    own data member if there is one, and what the realm gives otherwise. *)
Definition getProp `{Realm} (v : Value) (k : string) : Result Value :=
  match v with
  | VUndefined | VNull => Throw (typeErrorRead v k)
  | _ => match ownMember v k with
         | Some x => Ok x
         | None => beyond v k
         end
  end.

(** [Array.prototype.findIndex] for a predicate that may throw: the index of
    the first element that satisfies it, the elements being visited in order
    and no further than that one. *)
Fixpoint findIndex (p : Value -> Result bool) (l : list Value) : Result (option nat) :=
  match l with
  | [] => Ok None
  | x :: rest =>
      bindR (p x) (fun b =>
        if b then Ok (Some 0)
        else bindR (findIndex p rest) (fun r => Ok (S <$> r)))
  end.

(** [Array.prototype.filter] for a predicate that may throw. *)
Fixpoint filterR (p : Value -> Result bool) (l : list Value) : Result (list Value) :=
  match l with
  | [] => Ok []
  | x :: rest =>
      bindR (p x) (fun b =>
        bindR (filterR p rest) (fun r => Ok (if b then x :: r else r)))
  end.

End JS.
Import JS.

(** ** Shared data types ([types/types]) *)

(** The action kinds.  [CrudAction] is an enumeration of five members; at run
    time any other value can stand where one is expected, which
    [invalidAction] represents by its string conversion. *)
Inductive CrudAction :=
| fetchItems
| getItem
| createItem
| deleteItem
| updateItem
| invalidAction (shown : string).

(** [APIDefinition]: the request descriptor, with the two mappers.  A member
    that is left out reads as [undefined].  The mappers are functions of the
    user: a call of one returns a value or throws, as does the call of a
    mapper that a custom descriptor leaves out. *)
Record APIDefinition := {
  method : string;
  url : string;
  params : Value;
  data : Value;
  dataMapper : Value -> Result Value;
  stateMapper : Value -> Result Value
}.

(** The argument of the HTTP call, [{ method, url, params, data }]. *)
Record AxiosRequestConfig := {
  req_method : string;
  req_url : string;
  req_params : Value;
  req_data : Value
}.

(** The response of the HTTP call, of which only [data] is read. *)
Record AxiosResponse := { res_data : Value }.

(** The HTTP client: what the network answers to a request, a response or a
    rejection with an error. *)
Definition AxiosStatic := AxiosRequestConfig -> Result AxiosResponse.

(** The success and error callbacks are the user's.  A callback is a
    function object: it has an identity, and a call of it with the action
    kind, a value and the resource name returns or throws.  A call is an
    observable event. *)
Record ActionHandler := {
  handlerId : nat;
  handle : CrudAction -> Value -> string -> Result unit
}.

(** A user-supplied additional action is carried around, never called. *)
Definition UserAction := nat.

(** The custom definition hook is the user's as well: it returns a
    descriptor or throws. *)
Definition CustomAPIDefinitionFunction :=
  APIDefinition -> string -> CrudAction -> Value -> Result APIDefinition.

Record LoadingMutation := { lm_name : string; lm_state : string }.

(** [ResourceName]: the name as given, and its singular and plural forms. *)
Record ResourceName := { original : string; singular : string; plural : string }.

(** The payload object of a commit: [{ data }] or [{ data, actionData }]. *)
Record Payload := { p_data : Value; p_actionData : option Value }.

(** The store state of the module, an object indexed by strings. *)
Abbreviation State := (gmap string Value).

(** [state[k]]: [undefined] when there is no such member. *)
Definition readState (st : State) (k : string) : Value := default VUndefined (st !! k).

(** ** Builder instances and the heap

    A [CrudModule] instance lives at an address.  The arrow functions that
    the class creates capture [this], that is, an address: they read the
    fields of their receiver when they are called, not when they are
    created. *)

Abbreviation loc := nat (only parsing).

Record CrudModuleFields := {
  resourceName : ResourceName;
  (* the arrow function made by the constructor, given by the [this] it closes over *)
  generateAxiosRequestConfig_this : loc;
  customAPIDefinition : option CustomAPIDefinitionFunction;
  idAttribute : string;
  additionalActions : gmap string UserAction;
  additionalState : gmap string Value;
  commitState : bool;
  updateStateAfterAction : bool;
  refreshAfterAction : bool;
  handleActionSuccess : ActionHandler;
  handleActionError : ActionHandler;
  axios : AxiosStatic
}.

Abbreviation Heap := (list CrudModuleFields).

(** What a closure does when its receiver is not allocated; addresses come
    from allocation only, so that this does not happen on a heap that the
    code built. *)
Definition danglingReceiver : Value := VError "ReferenceError" "receiver is not allocated".

(** ** The world and the effects *)

Inductive Event :=
| EvCommit (type : string) (payload : Payload)
| EvRequest (req : AxiosRequestConfig)
| EvCallback (handler : ActionHandler) (action : CrudAction) (arg : Value) (resource : string).

Record World := {
  store : State;
  heap : Heap;
  trace : list Event
}.

Definition setStore (st : State) (w : World) : World :=
  {| store := st; heap := heap w; trace := trace w |}.

Definition emit (e : Event) (w : World) : World :=
  {| store := store w; heap := heap w; trace := trace w ++ [e] |}.

(** Computations on the world that complete normally or throw. *)
Definition M (A : Type) : Type := World -> Result A * World.

Definition ret {A} (a : A) : M A := fun w => (Ok a, w).

(** A call that does not touch the world. *)
Definition liftR {A} (r : Result A) : M A := fun w => (r, w).

Definition bind {A B} (m : M A) (k : A -> M B) : M B :=
  fun w =>
    match m w with
    | (Ok a, w') => k a w'
    | (Throw e, w') => (Throw e, w')
    end.

Declare Scope js_scope.
Delimit Scope js_scope with js.
Notation "x <- m ;; k" := (bind m (fun x => k))
  (at level 100, m at next level, right associativity) : js_scope.
Notation "m ;; k" := (bind m (fun _ => k))
  (at level 100, right associativity) : js_scope.

(** [try { body } catch (err) { handler(err) }]. *)
Definition tryCatch {A} (body : M A) (handler : Value -> M A) : M A :=
  fun w =>
    match body w with
    | (Ok a, w') => (Ok a, w')
    | (Throw e, w') => handler e w'
    end.

(** [try { body } finally { final }]: [final] runs in either case; when it
    completes normally the completion of [body] stands, when it throws its
    exception replaces it. *)
Definition tryFinally {A} (body : M A) (final : M unit) : M A :=
  fun w =>
    match body w with
    | (r, w') =>
        match final w' with
        | (Ok _, w'') => (r, w'')
        | (Throw e, w'') => (Throw e, w'')
        end
    end.

(** A mutation function [(state, payload) => { ... }]; it reads the heap when
    it is an arrow function that refers to [this]. *)
Definition Mutation := Heap -> State -> Payload -> Result State.

(** [ActionContext]: the store as the action sees it.  [commit] runs the
    mutation registered under a type on the state.  It may throw, and the
    state is then the one before the call: the mutations of this module throw
    before they write. *)
Record ActionContext := {
  commit : string -> Payload -> Heap -> State -> Result State
}.

(** ** [Action] (src/package/src/Action.ts) *)

Module Action.

Record ActionConfig := {
  loadingMutation : LoadingMutation;
  generateAxiosRequestConfig : Heap -> string -> CrudAction -> Value -> Result APIDefinition;
  actionType : CrudAction;
  resourceName : ResourceName;
  axios : AxiosStatic;
  commitState : bool;
  mutationName : string;
  actionName : string;
  handleActionSuccess : ActionHandler;
  handleActionError : ActionHandler
}.

(** [commit(type, payload)] as [execute] calls it. *)
Definition doCommit (ctx : ActionContext) (type : string) (payload : Payload) : M unit :=
  fun w =>
    let w1 := emit (EvCommit type payload) w in
    match commit ctx type payload (heap w1) (store w1) with
    | Ok st => (Ok tt, setStore st w1)
    | Throw e => (Throw e, w1)
    end.

(** [generateAxiosRequestConfig(resource, action, actionData)]. *)
Definition callGenerator (cfg : ActionConfig) (actionData : Value) : M APIDefinition :=
  fun w =>
    (generateAxiosRequestConfig cfg (heap w) (original (resourceName cfg))
       (actionType cfg) actionData, w).

(** [await axios(request)]. *)
Definition callAxios (ax : AxiosStatic) (req : AxiosRequestConfig) : M AxiosResponse :=
  fun w => (ax req, emit (EvRequest req) w).

(** A call of one of the two callbacks: what the callback throws reaches
    the caller. *)
Definition callHandler (h : ActionHandler) (action : CrudAction) (arg : Value)
    (resource : string) : M unit :=
  fun w => (handle h action arg resource, emit (EvCallback h action arg resource) w).

Definition loadingPayload (b : bool) : Payload :=
  {| p_data := VBool b; p_actionData := None |}.

Open Scope js_scope.

(** [execute({ commit }, actionData)] (Action.ts, lines 16-49).  The value of
    the computation is what the returned promise resolves with; a [Throw] is
    its rejection.  The descriptor is generated before the [try] statement
    is entered.  Inside it, the arguments of a call are evaluated before the
    call: the state mapper runs before the commit, and once more before the
    success callback; what the mappers, the commit and the success callback
    throw is caught like a rejection of the HTTP call.  What the error
    callback throws is not caught. *)
Definition execute (cfg : ActionConfig) (ctx : ActionContext) (actionData : Value) : M Value :=
  doCommit ctx (lm_name (loadingMutation cfg)) (loadingPayload true) ;;
  def <- callGenerator cfg actionData ;;
  tryFinally
    (tryCatch
       (res <- callAxios (axios cfg)
                 {| req_method := method def; req_url := url def;
                    req_params := params def; req_data := data def |} ;;
        (if commitState cfg
         then mapped <- liftR (stateMapper def (res_data res)) ;;
              doCommit ctx (mutationName cfg)
                {| p_data := mapped; p_actionData := Some actionData |}
         else ret tt) ;;
        mapped <- liftR (stateMapper def (res_data res)) ;;
        callHandler (handleActionSuccess cfg) (actionType cfg) mapped
          (original (resourceName cfg)) ;;
        liftR (dataMapper def (res_data res)))
       (fun err =>
          callHandler (handleActionError cfg) (actionType cfg) err
            (original (resourceName cfg)) ;;
          ret VUndefined))
    (doCommit ctx (lm_name (loadingMutation cfg)) (loadingPayload false)).

Close Scope js_scope.

Definition isAction (type : CrudAction) : bool :=
  match type with
  | deleteItem | updateItem | createItem => true
  | _ => false
  end.

(** [get state()]. *)
Definition state (cfg : ActionConfig) : State :=
  {[ lm_state (loadingMutation cfg) := VNull ]}.

(** An entry of the [actions] of a module: the arrow function that an
    [Action] makes for its [execute], given by the action it is bound to, or
    an action of the user. *)
Inductive ActionFunction :=
| BoundExecute (cfg : ActionConfig)
| UserFunction (f : UserAction).

(** [get actions()]. *)
Definition actions (cfg : ActionConfig) : gmap string ActionFunction :=
  {[ actionName cfg := BoundExecute cfg ]}.

(** The mutation of the loading flag,
    [state[loadingMutation.state] = Boolean(data)]. *)
Definition loadingFlagMutation (lm : LoadingMutation) : Mutation :=
  fun _ st payload => Ok (<[ lm_state lm := VBool (ToBoolean (p_data payload)) ]> st).

(** [get mutations()]. *)
Definition mutations (cfg : ActionConfig) : gmap string Mutation :=
  {[ lm_name (loadingMutation cfg) := loadingFlagMutation (loadingMutation cfg) ]}.

End Action.

(** ** The host store *)

Module Vuex.

(** The module description that [getModule] returns. *)
Record ModuleTree := {
  namespaced : bool;
  state : State;
  actions : gmap string Action.ActionFunction;
  mutations : gmap string Mutation;
  getters : gmap string unit
}.

(** [commit] of a store in which the mutations [ms] are registered: the
    handler of the type runs and what it throws reaches the caller; a type
    that is not registered is reported on the console and nothing happens. *)
Definition commitOf (ms : gmap string Mutation) : string -> Payload -> Heap -> State -> Result State :=
  fun type payload h st =>
    match ms !! type with
    | Some handler => handler h st payload
    | None => Ok st
    end.

Definition context (m : ModuleTree) : ActionContext := {| commit := commitOf (mutations m) |}.

End Vuex.

(** ** [ActionFactory] *)

Module ActionFactory.

(** [CrudModuleConfig], what [get config()] of a builder hands out. *)
Record CrudModuleConfig := {
  c_generateAxiosRequestConfig : Heap -> string -> CrudAction -> Value -> Result APIDefinition;
  c_resourceName : ResourceName;
  c_axios : AxiosStatic;
  c_commitState : bool;
  c_handleActionSuccess : ActionHandler;
  c_handleActionError : ActionHandler
}.

(** Modelled from the spec: [ActionFactory.create], whose file is not among
    the sources.  The builder constructs one action executor per default
    action kind, each of which is handed the configuration of the module;
    the executor reads from its configuration the members of the module
    configuration and the four arguments of [create]. *)
Definition create (config : CrudModuleConfig) (loadingMutation : LoadingMutation)
    (mutationName actionName : string) (actionType : CrudAction) : Action.ActionConfig :=
  {| Action.loadingMutation := loadingMutation;
     Action.generateAxiosRequestConfig := c_generateAxiosRequestConfig config;
     Action.actionType := actionType;
     Action.resourceName := c_resourceName config;
     Action.axios := c_axios config;
     Action.commitState := c_commitState config;
     Action.mutationName := mutationName;
     Action.actionName := actionName;
     Action.handleActionSuccess := c_handleActionSuccess config;
     Action.handleActionError := c_handleActionError config |}.

End ActionFactory.

(** ** [CrudModule] and [CrudModuleFactory] *)

Module CrudModule.

(** The request descriptor before the mappers are added. *)
Record PartialAPIDefinition := {
  pd_method : string;
  pd_url : string;
  pd_data : Value
}.

(** The body of the arrow function [generateAxiosRequestConfig] (lines 77-104
    of the builder), for the receiver [this] that it closes over.  The
    template literals convert the input, or its id-attribute, to a string. *)
Definition generateAxiosRequestConfig `{Realm} (this : CrudModuleFields)
    (resource : string) (action : CrudAction) (actionData : Value) : Result APIDefinition :=
  bindR
    (match action with
     | fetchItems =>
         Ok {| pd_method := "GET"; pd_url := "/" ++ resource; pd_data := VUndefined |}
     | getItem =>
         bindR (ToString actionData) (fun shown =>
           Ok {| pd_method := "GET"; pd_url := "/" ++ resource ++ "/" ++ shown;
                 pd_data := VUndefined |})
     | createItem =>
         Ok {| pd_method := "POST"; pd_url := "/" ++ resource; pd_data := actionData |}
     | deleteItem =>
         bindR (ToString actionData) (fun shown =>
           Ok {| pd_method := "DELETE"; pd_url := "/" ++ resource ++ "/" ++ shown;
                 pd_data := VUndefined |})
     | updateItem =>
         bindR (getProp actionData (idAttribute this)) (fun id =>
           bindR (ToString id) (fun shown =>
             Ok {| pd_method := "PUT"; pd_url := "/" ++ resource ++ "/" ++ shown;
                   pd_data := actionData |}))
     | invalidAction shown =>
         Throw (VError "Error" (shown ++ " is not a valid CRUD action"))
     end)
    (fun partialDef =>
       let definition :=
         {| method := pd_method partialDef; url := pd_url partialDef;
            params := VUndefined; data := pd_data partialDef;
            dataMapper := fun e => Ok e; stateMapper := fun e => Ok e |} in
       match customAPIDefinition this with
       | None => Ok definition
       | Some custom => custom definition resource action actionData
       end).

(** The arrow function itself: it reads its receiver when it is called. *)
Definition generatorClosure `{Realm} (self : loc) : Heap -> string -> CrudAction -> Value -> Result APIDefinition :=
  fun h resource action actionData =>
    match h !! self with
    | Some this => generateAxiosRequestConfig this resource action actionData
    | None => Throw danglingReceiver
    end.

(** [get config()]. *)
Definition config `{Realm} (this : CrudModuleFields) : ActionFactory.CrudModuleConfig :=
  {| ActionFactory.c_generateAxiosRequestConfig :=
       generatorClosure (generateAxiosRequestConfig_this this);
     ActionFactory.c_resourceName := resourceName this;
     ActionFactory.c_axios := axios this;
     ActionFactory.c_commitState := commitState this;
     ActionFactory.c_handleActionSuccess := handleActionSuccess this;
     ActionFactory.c_handleActionError := handleActionError this |}.

Record StateNames := { s_items : string; s_currentItem : string }.

Record MutationNames := {
  m_setItems : string;
  m_setCurrentItem : string;
  m_addItem : string;
  m_updateItem : string;
  m_deleteItem : string
}.

Section Host.

Context `{Realm}.

(** [String.prototype.toUpperCase] and [toLowerCase], and the constructor of
    [ResourceName], whose file (singular and plural forms) is not among the
    sources. *)
Variables toUpperCase toLowerCase : string -> string.
Variable newResourceName : string -> ResourceName.

(** [get states()]. *)
Definition states (this : CrudModuleFields) : StateNames :=
  {| s_items := toLowerCase (plural (resourceName this));
     s_currentItem := "current" ++ singular (resourceName this) |}.

(** [get mutations()], the names of the five default mutations. *)
Definition mutations (this : CrudModuleFields) : MutationNames :=
  {| m_setItems := "SET_" ++ toUpperCase (plural (resourceName this));
     m_setCurrentItem := "SET_CURRENT_" ++ toUpperCase (singular (resourceName this));
     m_addItem := "ADD_" ++ toUpperCase (singular (resourceName this));
     m_updateItem := "UPDATE_" ++ toUpperCase (singular (resourceName this));
     m_deleteItem := "DELETE_" ++ toUpperCase (singular (resourceName this)) |}.

(** [get actions()], the five default actions. *)
Definition actions (this : CrudModuleFields) : list Action.ActionConfig :=
  let rn := resourceName this in
  [ ActionFactory.create (config this)
      {| lm_name := "SET_FETCHING_" ++ toUpperCase (plural rn);
         lm_state := "fetching" ++ plural rn |}
      (m_setItems (mutations this)) ("fetch" ++ plural rn) fetchItems;
    ActionFactory.create (config this)
      {| lm_name := "SET_GETTING_" ++ toUpperCase (singular rn);
         lm_state := "getting" ++ singular rn |}
      (m_setCurrentItem (mutations this)) ("get" ++ singular rn) getItem;
    ActionFactory.create (config this)
      {| lm_name := "SET_CREATING_" ++ toUpperCase (singular rn);
         lm_state := "creating" ++ singular rn |}
      (m_addItem (mutations this)) ("create" ++ singular rn) createItem;
    ActionFactory.create (config this)
      {| lm_name := "SET_UPDATING_" ++ toUpperCase (singular rn);
         lm_state := "updating" ++ singular rn |}
      (m_updateItem (mutations this)) ("update" ++ singular rn) updateItem;
    ActionFactory.create (config this)
      {| lm_name := "SET_DELETING_" ++ toUpperCase (singular rn);
         lm_state := "deleting" ++ singular rn |}
      (m_deleteItem (mutations this)) ("delete" ++ singular rn) deleteItem ].

(** [Object.assign(accumulator, { ...source })]: the members of the source
    replace those of the accumulator. *)
Definition assign {V} (accumulator source : gmap string V) : gmap string V :=
  source ∪ accumulator.

(** [buildActions()] (lines 256-263). *)
Definition buildActions (this : CrudModuleFields) : gmap string Action.ActionFunction :=
  assign
    (foldl (fun accumulator currentValue => assign accumulator (Action.actions currentValue))
       ∅ (actions this))
    (Action.UserFunction <$> additionalActions this).

(** [buildState()] (lines 269-279). *)
Definition buildState (this : CrudModuleFields) : State :=
  assign
    (assign
       (foldl (fun accumulator currentValue => assign accumulator (Action.state currentValue))
          ∅ (actions this))
       (foldl (fun accumulator currentValue => assign accumulator {[ currentValue := VNull ]})
          ∅ [s_items (states this); s_currentItem (states this)]))
    (additionalState this).

Definition notAnArray (this : CrudModuleFields) : Value :=
  VError "Error" (s_items (states this) ++ " state is not an array").

(** The bodies of the five default mutations (lines 290-316 of the builder),
    for the receiver [this]. *)
Definition setItems (this : CrudModuleFields) (st : State) (payload : Payload) : Result State :=
  Ok (<[ s_items (states this) := p_data payload ]> st).

Definition setCurrentItem (this : CrudModuleFields) (st : State) (payload : Payload) : Result State :=
  Ok (<[ s_currentItem (states this) := p_data payload ]> st).

Definition addItem (this : CrudModuleFields) (st : State) (payload : Payload) : Result State :=
  let items := s_items (states this) in
  let st1 := if negb (ToBoolean (readState st items)) then <[ items := VArr [] ]> st else st in
  match readState st1 items with
  | VArr elems => Ok (<[ items := VArr (elems ++ [p_data payload]) ]> st1)
  | _ => Throw (notAnArray this)
  end.

(** [e => e[this.idAttribute] === data[this.idAttribute]]. *)
Definition sameId (this : CrudModuleFields) (data e : Value) : Result bool :=
  bindR (getProp e (idAttribute this)) (fun a =>
    bindR (getProp data (idAttribute this)) (fun b => Ok (strictEq a b))).

Definition updateItemMutation (this : CrudModuleFields) (st : State) (payload : Payload) : Result State :=
  let items := s_items (states this) in
  match readState st items with
  | VArr elems =>
      bindR (findIndex (sameId this (p_data payload)) elems) (fun index =>
        match index with
        | Some i => Ok (<[ items := VArr (<[ i := p_data payload ]> elems) ]> st)
        | None => Ok st
        end)
  | _ => Throw (notAnArray this)
  end.

(** [e => e[this.idAttribute] !== actionData]. *)
Definition otherId (this : CrudModuleFields) (actionData e : Value) : Result bool :=
  bindR (getProp e (idAttribute this)) (fun a => Ok (negb (strictEq a actionData))).

Definition deleteItemMutation (this : CrudModuleFields) (st : State) (payload : Payload) : Result State :=
  let items := s_items (states this) in
  match readState st items with
  | VArr elems =>
      bindR (filterR (otherId this (default VUndefined (p_actionData payload))) elems)
        (fun kept => Ok (<[ items := VArr kept ]> st))
  | _ => Ok st
  end.

(** An arrow function of [buildMutations]: the body runs on the receiver as
    it is when the mutation is committed. *)
Definition boundTo (self : loc)
    (body : CrudModuleFields -> State -> Payload -> Result State) : Mutation :=
  fun h st payload =>
    match h !! self with
    | Some this => body this st payload
    | None => Throw danglingReceiver
    end.

(** [buildMutations()] (lines 285-318), for the receiver [this] at the
    address [self]. *)
Definition buildMutations (self : loc) (this : CrudModuleFields) : gmap string Mutation :=
  <[ m_deleteItem (mutations this) := boundTo self deleteItemMutation ]>
  (<[ m_updateItem (mutations this) := boundTo self updateItemMutation ]>
  (<[ m_addItem (mutations this) := boundTo self addItem ]>
  (<[ m_setCurrentItem (mutations this) := boundTo self setCurrentItem ]>
  (<[ m_setItems (mutations this) := boundTo self setItems ]>
  (foldl (fun accumulator currentValue => assign accumulator (Action.mutations currentValue))
     ∅ (actions this)))))).

(** [getModule()] (lines 324-332), for the receiver [this] at the address
    [self]. *)
Definition getModuleOf (self : loc) (this : CrudModuleFields) : Vuex.ModuleTree :=
  {| Vuex.namespaced := true;
     Vuex.state := buildState this;
     Vuex.actions := buildActions this;
     Vuex.mutations := buildMutations self this;
     Vuex.getters := ∅ |}.

Definition getModule (self : loc) (h : Heap) : option Vuex.ModuleTree :=
  getModuleOf self <$> h !! self.

(** The empty function [() => {}]: a call of it returns. *)
Definition emptyFunction (identity : nat) : ActionHandler :=
  {| handlerId := identity; handle := fun _ _ _ => Ok tt |}.

(** The fields that the constructor sets, for the instance at [self];
    [defaultAxios] is the imported client, and [onSuccess] and [onError] are
    the identities of the two empty functions that the constructor makes. *)
Definition constructed (defaultAxios : AxiosStatic) (onSuccess onError : nat)
    (resource : string) (self : loc) : CrudModuleFields :=
  {| resourceName := newResourceName resource;
     generateAxiosRequestConfig_this := self;
     customAPIDefinition := None;
     idAttribute := "id";
     additionalActions := ∅;
     additionalState := ∅;
     commitState := true;
     updateStateAfterAction := false;
     refreshAfterAction := false;
     handleActionSuccess := emptyFunction onSuccess;
     handleActionError := emptyFunction onError;
     axios := defaultAxios |}.

(** [new CrudModule(resource)]: the instance is allocated at the next free
    address. *)
Definition construct (defaultAxios : AxiosStatic) (onSuccess onError : nat)
    (resource : string) (h : Heap) : loc * Heap :=
  (length h,
   (h ++ [constructed defaultAxios onSuccess onError resource (length h)])%list).

End Host.

(** The setters write one field of the receiver; these are the field
    updates of those that the examples call, and of [create]. *)
Definition withResourceName (rn : ResourceName) (o : CrudModuleFields) : CrudModuleFields :=
  {| resourceName := rn;
     generateAxiosRequestConfig_this := generateAxiosRequestConfig_this o;
     customAPIDefinition := customAPIDefinition o;
     idAttribute := idAttribute o;
     additionalActions := additionalActions o;
     additionalState := additionalState o;
     commitState := commitState o;
     updateStateAfterAction := updateStateAfterAction o;
     refreshAfterAction := refreshAfterAction o;
     handleActionSuccess := handleActionSuccess o;
     handleActionError := handleActionError o;
     axios := axios o |}.

Definition withIdAttribute (value : string) (o : CrudModuleFields) : CrudModuleFields :=
  {| resourceName := resourceName o;
     generateAxiosRequestConfig_this := generateAxiosRequestConfig_this o;
     customAPIDefinition := customAPIDefinition o;
     idAttribute := value;
     additionalActions := additionalActions o;
     additionalState := additionalState o;
     commitState := commitState o;
     updateStateAfterAction := updateStateAfterAction o;
     refreshAfterAction := refreshAfterAction o;
     handleActionSuccess := handleActionSuccess o;
     handleActionError := handleActionError o;
     axios := axios o |}.

Definition withAdditionalActions (acts : gmap string UserAction) (o : CrudModuleFields) : CrudModuleFields :=
  {| resourceName := resourceName o;
     generateAxiosRequestConfig_this := generateAxiosRequestConfig_this o;
     customAPIDefinition := customAPIDefinition o;
     idAttribute := idAttribute o;
     additionalActions := acts;
     additionalState := additionalState o;
     commitState := commitState o;
     updateStateAfterAction := updateStateAfterAction o;
     refreshAfterAction := refreshAfterAction o;
     handleActionSuccess := handleActionSuccess o;
     handleActionError := handleActionError o;
     axios := axios o |}.

Definition withAdditionalState (st : gmap string Value) (o : CrudModuleFields) : CrudModuleFields :=
  {| resourceName := resourceName o;
     generateAxiosRequestConfig_this := generateAxiosRequestConfig_this o;
     customAPIDefinition := customAPIDefinition o;
     idAttribute := idAttribute o;
     additionalActions := additionalActions o;
     additionalState := st;
     commitState := commitState o;
     updateStateAfterAction := updateStateAfterAction o;
     refreshAfterAction := refreshAfterAction o;
     handleActionSuccess := handleActionSuccess o;
     handleActionError := handleActionError o;
     axios := axios o |}.

Definition withCommitState (value : bool) (o : CrudModuleFields) : CrudModuleFields :=
  {| resourceName := resourceName o;
     generateAxiosRequestConfig_this := generateAxiosRequestConfig_this o;
     customAPIDefinition := customAPIDefinition o;
     idAttribute := idAttribute o;
     additionalActions := additionalActions o;
     additionalState := additionalState o;
     commitState := value;
     updateStateAfterAction := updateStateAfterAction o;
     refreshAfterAction := refreshAfterAction o;
     handleActionSuccess := handleActionSuccess o;
     handleActionError := handleActionError o;
     axios := axios o |}.

(** [this.field = value] on the instance at [self]. *)
Definition assignField (update : CrudModuleFields -> CrudModuleFields) (self : loc) (h : Heap) : Heap :=
  alter update self h.

Definition setAdditionalActions (acts : gmap string UserAction) := assignField (withAdditionalActions acts).
Definition setAdditionalState (st : gmap string Value) := assignField (withAdditionalState st).
Definition setIdAttribute (value : string) := assignField (withIdAttribute value).
Definition setCommitState (value : bool) := assignField (withCommitState value).

(** The field updates of the other setters (lines 339-413). *)
Definition withAxios (value : AxiosStatic) (o : CrudModuleFields) : CrudModuleFields :=
  {| resourceName := resourceName o;
     generateAxiosRequestConfig_this := generateAxiosRequestConfig_this o;
     customAPIDefinition := customAPIDefinition o;
     idAttribute := idAttribute o;
     additionalActions := additionalActions o;
     additionalState := additionalState o;
     commitState := commitState o;
     updateStateAfterAction := updateStateAfterAction o;
     refreshAfterAction := refreshAfterAction o;
     handleActionSuccess := handleActionSuccess o;
     handleActionError := handleActionError o;
     axios := value |}.

Definition withUpdateStateAfterAction (value : bool) (o : CrudModuleFields) : CrudModuleFields :=
  {| resourceName := resourceName o;
     generateAxiosRequestConfig_this := generateAxiosRequestConfig_this o;
     customAPIDefinition := customAPIDefinition o;
     idAttribute := idAttribute o;
     additionalActions := additionalActions o;
     additionalState := additionalState o;
     commitState := commitState o;
     updateStateAfterAction := value;
     refreshAfterAction := refreshAfterAction o;
     handleActionSuccess := handleActionSuccess o;
     handleActionError := handleActionError o;
     axios := axios o |}.

Definition withRefreshAfterAction (value : bool) (o : CrudModuleFields) : CrudModuleFields :=
  {| resourceName := resourceName o;
     generateAxiosRequestConfig_this := generateAxiosRequestConfig_this o;
     customAPIDefinition := customAPIDefinition o;
     idAttribute := idAttribute o;
     additionalActions := additionalActions o;
     additionalState := additionalState o;
     commitState := commitState o;
     updateStateAfterAction := updateStateAfterAction o;
     refreshAfterAction := value;
     handleActionSuccess := handleActionSuccess o;
     handleActionError := handleActionError o;
     axios := axios o |}.

Definition withCustomAPIDefinition (func : option CustomAPIDefinitionFunction) (o : CrudModuleFields) : CrudModuleFields :=
  {| resourceName := resourceName o;
     generateAxiosRequestConfig_this := generateAxiosRequestConfig_this o;
     customAPIDefinition := func;
     idAttribute := idAttribute o;
     additionalActions := additionalActions o;
     additionalState := additionalState o;
     commitState := commitState o;
     updateStateAfterAction := updateStateAfterAction o;
     refreshAfterAction := refreshAfterAction o;
     handleActionSuccess := handleActionSuccess o;
     handleActionError := handleActionError o;
     axios := axios o |}.

Definition withHandleActionSuccess (func : ActionHandler) (o : CrudModuleFields) : CrudModuleFields :=
  {| resourceName := resourceName o;
     generateAxiosRequestConfig_this := generateAxiosRequestConfig_this o;
     customAPIDefinition := customAPIDefinition o;
     idAttribute := idAttribute o;
     additionalActions := additionalActions o;
     additionalState := additionalState o;
     commitState := commitState o;
     updateStateAfterAction := updateStateAfterAction o;
     refreshAfterAction := refreshAfterAction o;
     handleActionSuccess := func;
     handleActionError := handleActionError o;
     axios := axios o |}.

Definition withHandleActionError (func : ActionHandler) (o : CrudModuleFields) : CrudModuleFields :=
  {| resourceName := resourceName o;
     generateAxiosRequestConfig_this := generateAxiosRequestConfig_this o;
     customAPIDefinition := customAPIDefinition o;
     idAttribute := idAttribute o;
     additionalActions := additionalActions o;
     additionalState := additionalState o;
     commitState := commitState o;
     updateStateAfterAction := updateStateAfterAction o;
     refreshAfterAction := refreshAfterAction o;
     handleActionSuccess := handleActionSuccess o;
     handleActionError := func;
     axios := axios o |}.

Definition setAxios (value : AxiosStatic) := assignField (withAxios value).

(** The flags are coerced with [Boolean(value)]. *)
Definition setUpdateStateAfterAction (value : Value) :=
  assignField (withUpdateStateAfterAction (ToBoolean value)).
Definition setRefreshAfterAction (value : Value) :=
  assignField (withRefreshAfterAction (ToBoolean value)).
Definition setCommitStateOf (value : Value) := setCommitState (ToBoolean value).

Definition setCustomAPIDefinition (func : CustomAPIDefinitionFunction) :=
  assignField (withCustomAPIDefinition (Some func)).
Definition onActionSuccess (func : ActionHandler) := assignField (withHandleActionSuccess func).
Definition onActionError (func : ActionHandler) := assignField (withHandleActionError func).

End CrudModule.

Module CrudModuleFactory.

Record CrudModuleFactory := { instance : loc }.

Section Host.

Context `{Realm}.

Variables toUpperCase toLowerCase : string -> string.
Variable newResourceName : string -> ResourceName.

(** [create(resource)] (lines 27-34): a new object receives the fields of
    the instance ([Object.assign] on a fresh object of the same prototype),
    its [resourceName] is overwritten, and the module is built from it. *)
Definition create (factory : CrudModuleFactory) (resource : string) (h : Heap)
    : option (Vuex.ModuleTree * Heap) :=
  match h !! instance factory with
  | None => None
  | Some inst =>
      let obj := length h in
      let h1 := (h ++ [inst])%list in
      let h2 := CrudModule.assignField
                  (CrudModule.withResourceName (newResourceName resource)) obj h1 in
      (fun m => (m, h2)) <$> CrudModule.getModule toUpperCase toLowerCase obj h2
  end.

End Host.

(** [getFactory()]. *)
Definition getFactory (self : loc) : CrudModuleFactory := {| instance := self |}.

End CrudModuleFactory.

(** ** Properties that the statements refer to *)

(** The store runs the mutation of the loading flag of an action under its
    type, as it does once the module of the action is registered. *)
Definition LoadingRegistered (ctx : ActionContext) (lm : LoadingMutation) : Prop :=
  forall (b : bool) (h : Heap) (st : State),
    commit ctx (lm_name lm) {| p_data := VBool b; p_actionData := None |} h st
    = Ok (<[ lm_state lm := VBool b ]> st).

(** The world after a run that started in [w]: the store is [st] and the
    calls [evs] were made, in this order. *)
Definition after (w : World) (st : State) (evs : list Event) : World :=
  {| store := st; heap := heap w; trace := (trace w ++ evs)%list |}.

(** A request descriptor without query parameters and with the identity for
    both mappers. *)
Definition descriptor (m u : string) (d : Value) : APIDefinition :=
  {| method := m; url := u; params := VUndefined; data := d;
     dataMapper := fun e => Ok e; stateMapper := fun e => Ok e |}.

Definition commitEvent (type : string) (data : Value) (actionData : Value) : Event :=
  EvCommit type {| p_data := data; p_actionData := Some actionData |}.

Definition loadingEvent (lm : LoadingMutation) (b : bool) : Event :=
  EvCommit (lm_name lm) {| p_data := VBool b; p_actionData := None |}.

(** What [execute] resolves or rejects with once the error callback was
    called: [undefined] when the callback returned, and what it threw
    otherwise. *)
Definition afterErrorCallback (r : Result unit) : Result Value :=
  match r with
  | Ok _ => Ok VUndefined
  | Throw X => Throw X
  end.

(** The outcome that the specification gives for a run in which the HTTP
    call succeeds (with [res]) while the commit-state flag is set: the
    primary mutation is committed, the success callback is called with the
    state-mapped payload and the data-mapped payload is returned. *)
Definition spec_success_outcome (cfg : Action.ActionConfig) (ctx : ActionContext)
    (actionData : Value) (w : World) (mapped out : Value) : Prop :=
  let (r, w') := Action.execute cfg ctx actionData w in
  r = Ok out
  /\ In (commitEvent (Action.mutationName cfg) mapped actionData) (trace w')
  /\ In (EvCallback (Action.handleActionSuccess cfg) (Action.actionType cfg) mapped
           (original (Action.resourceName cfg)))
        (trace w').

(** The add-item mutation as the specification words it: an absent
    collection state is initialised and receives the payload, a sequence
    receives the payload at its end, and anything else is an error. *)
Definition spec_addItem (toLowerCase : string -> string) (this : CrudModuleFields)
    (st : State) (payload : Payload) : Result State :=
  let items := CrudModule.s_items (CrudModule.states toLowerCase this) in
  match readState st items with
  | VUndefined | VNull => Ok (<[ items := VArr [p_data payload] ]> st)
  | VArr elems => Ok (<[ items := VArr (elems ++ [p_data payload]) ]> st)
  | _ => Throw (CrudModule.notAnArray toLowerCase this)
  end.

(** Whether the delete-item mutation keeps an element: its id-attribute is
    read and is not strictly equal to the input of the action. *)
Definition keeps `{Realm} (this : CrudModuleFields) (actionData e : Value) : bool :=
  match getProp e (idAttribute this) with
  | Ok id => negb (strictEq id actionData)
  | Throw _ => false
  end.

(** The [TypeError] of a property read on [undefined] or [null]. *)
Definition cannotRead (nullish key : string) : Value :=
  VError "TypeError" ("Cannot read properties of " ++ nullish ++ " (reading '" ++ key ++ "')").


(** Two module descriptions are the same on a heap: they have the same flag,
    the same initial state, the same actions and getters, mutations under
    the same types, and committing a type does the same with both. *)
Definition sameDescriptor (h : Heap) (m1 m2 : Vuex.ModuleTree) : Prop :=
  Vuex.namespaced m1 = Vuex.namespaced m2
  /\ Vuex.state m1 = Vuex.state m2
  /\ Vuex.actions m1 = Vuex.actions m2
  /\ Vuex.getters m1 = Vuex.getters m2
  /\ dom (Vuex.mutations m1) = dom (Vuex.mutations m2)
  /\ forall type payload st,
       Vuex.commitOf (Vuex.mutations m1) type payload h st
       = Vuex.commitOf (Vuex.mutations m2) type payload h st.

(** The id-attributes of the elements of a collection, as they are read. *)
Definition idsOf `{Realm} (this : CrudModuleFields) (elems : list Value) : list (Result Value) :=
  List.map (fun e => getProp e (idAttribute this)) elems.

(** A run on the store [st] with the builder heap [h], from an empty
    trace. *)
Definition worldOf (st : State) (h : Heap) : World :=
  {| store := st; heap := h; trace := [] |}.

(** ** A concrete module, for the examples *)

Module Examples.

(** The realm of the examples: the values are plain data, which have no
    member beyond their own under the keys that are read, and an object
    converts to a string as [Object.prototype.toString] has it. *)
#[local] Instance realm : Realm :=
  {| beyond := fun _ _ => Ok VUndefined;
     convert := fun _ => Ok "[object Object]" |}.

(** A realm in which the objects inherit a member [id], the same for all of
    them, and an object cannot be converted to a string. *)
Definition heirs : Realm :=
  {| beyond := fun v k =>
       match v with
       | VObj _ _ => if String.eqb k "id" then Ok (VStr "inherited") else Ok VUndefined
       | _ => Ok VUndefined
       end;
     convert := fun _ =>
       Throw (VError "TypeError" "Cannot convert object to primitive value") |}.

Definition upperChar (c : ascii) : ascii :=
  let n := nat_of_ascii c in
  if (97 <=? n)%nat && (n <=? 122)%nat then ascii_of_nat (n - 32) else c.

Definition lowerChar (c : ascii) : ascii :=
  let n := nat_of_ascii c in
  if (65 <=? n)%nat && (n <=? 90)%nat then ascii_of_nat (n + 32) else c.

Fixpoint mapString (f : ascii -> ascii) (s : string) : string :=
  match s with
  | EmptyString => EmptyString
  | String c rest => String (f c) (mapString f rest)
  end.

(** Case conversion on the ASCII letters. *)
Definition toUpperCase : string -> string := mapString upperChar.
Definition toLowerCase : string -> string := mapString lowerChar.

Definition capitalize (s : string) : string :=
  match s with
  | EmptyString => EmptyString
  | String c rest => String (upperChar c) rest
  end.

(** A resource name with a capitalised singular and a regular plural, as
    for [user]: [User] and [Users]. *)
Definition newResourceName (resource : string) : ResourceName :=
  {| original := resource;
     singular := capitalize resource;
     plural := capitalize resource ++ "s" |}.

(** The object [{ id, name }] at an address; the id is an integer. *)
Definition item (address : positive) (id : Z) (name : string) : Value :=
  VObj address [("id", VNum (pretty id)); ("name", VStr name)].

Definition networkError : Value := VError "AxiosError" "Network Error".

(** A server that answers every request with the item 1, and one that is
    not reachable. *)
Definition axiosOk : AxiosStatic := fun _ => Ok {| res_data := item 9 1 "b" |}.
Definition axiosDown : AxiosStatic := fun _ => Throw networkError.

(** The two empty callbacks that the constructor makes. *)
Definition onSuccess : ActionHandler := CrudModule.emptyFunction 1.
Definition onError : ActionHandler := CrudModule.emptyFunction 2.

(** A callback of the user that throws. *)
Definition callbackError : Value := VError "Error" "callback failed".
Definition failing : ActionHandler :=
  {| handlerId := 3; handle := fun _ _ _ => Throw callbackError |}.

(** [new CrudModule('user')] on the empty heap, with either server. *)
Definition built (ax : AxiosStatic) : loc * Heap :=
  CrudModule.construct newResourceName ax 1 2 "user" [].

Definition heapOf (ax : AxiosStatic) : Heap := snd (built ax).

Definition instanceOf (ax : AxiosStatic) : CrudModuleFields :=
  CrudModule.constructed newResourceName ax 1 2 "user" 0.

Definition moduleOf (this : CrudModuleFields) : Vuex.ModuleTree :=
  CrudModule.getModuleOf toUpperCase toLowerCase 0 this.

(** The world once the module is registered: the store holds the initial
    state of the module. *)
Definition registered (h : Heap) (m : Vuex.ModuleTree) : World :=
  {| store := Vuex.state m; heap := h; trace := [] |}.

(** Three of the default actions of the module, as [get actions()] makes
    them. *)
Definition creating : LoadingMutation :=
  {| lm_name := "SET_CREATING_USER"; lm_state := "creatingUser" |}.

Definition updating : LoadingMutation :=
  {| lm_name := "SET_UPDATING_USER"; lm_state := "updatingUser" |}.

Definition getting : LoadingMutation :=
  {| lm_name := "SET_GETTING_USER"; lm_state := "gettingUser" |}.

Definition createUser (this : CrudModuleFields) : Action.ActionConfig :=
  ActionFactory.create (CrudModule.config this) creating "ADD_USER" "createUser" createItem.

Definition updateUser (this : CrudModuleFields) : Action.ActionConfig :=
  ActionFactory.create (CrudModule.config this) updating "UPDATE_USER" "updateUser" updateItem.

Definition getUser (this : CrudModuleFields) : Action.ActionConfig :=
  ActionFactory.create (CrudModule.config this) getting "SET_CURRENT_USER" "getUser" getItem.

(** An action whose kind is none of the five. *)
Definition purgeUser (this : CrudModuleFields) : Action.ActionConfig :=
  ActionFactory.create (CrudModule.config this) updating "UPDATE_USER" "purgeUser"
    (invalidAction "purge").

(** The builder with the commit-state flag switched off,
    [new CrudModule('user').setCommitState(false)]. *)
Definition quietHeap (ax : AxiosStatic) : Heap :=
  CrudModule.setCommitState false 0 (heapOf ax).

Definition quietInstance (ax : AxiosStatic) : CrudModuleFields :=
  CrudModule.withCommitState false (instanceOf ax).

(** The builder with a callback that throws,
    [new CrudModule('user').onActionError(failing)] and
    [new CrudModule('user').setCommitState(false).onActionSuccess(failing)]. *)
Definition carelessHeap (ax : AxiosStatic) : Heap :=
  CrudModule.onActionError failing 0 (heapOf ax).

Definition carelessInstance (ax : AxiosStatic) : CrudModuleFields :=
  CrudModule.withHandleActionError failing (instanceOf ax).

Definition brittleHeap (ax : AxiosStatic) : Heap :=
  CrudModule.onActionSuccess failing 0 (quietHeap ax).

Definition brittleInstance (ax : AxiosStatic) : CrudModuleFields :=
  CrudModule.withHandleActionSuccess failing (quietInstance ax).

(** The request descriptors of the three actions for the item 1, and
    their requests. *)
Definition postUser : APIDefinition := descriptor "POST" "/user" (item 5 1 "b").
Definition putUser : APIDefinition := descriptor "PUT" "/user/1" (item 5 1 "b").
Definition getUser1 : APIDefinition := descriptor "GET" "/user/1" VUndefined.

Definition postRequest : AxiosRequestConfig :=
  {| req_method := "POST"; req_url := "/user"; req_params := VUndefined;
     req_data := item 5 1 "b" |}.
Definition putRequest : AxiosRequestConfig :=
  {| req_method := "PUT"; req_url := "/user/1"; req_params := VUndefined;
     req_data := item 5 1 "b" |}.
Definition getRequest : AxiosRequestConfig :=
  {| req_method := "GET"; req_url := "/user/1"; req_params := VUndefined;
     req_data := VUndefined |}.

End Examples.

(** * The value operations on small inputs *)

Section Values.

#[local] Existing Instance Examples.realm.

Example ToString_number : ToString (VNum "-5") = Ok "-5".
Proof. reflexivity. Qed.

Example ToString_large_number : ToString (VNum "1e+21") = Ok "1e+21".
Proof. reflexivity. Qed.

Example ToString_array : ToString (VArr [VNum "1"; VNull; VStr "a"]) = Ok "1,,a".
Proof. reflexivity. Qed.

Example getProp_of_string : getProp (VStr "abc") "id" = Ok VUndefined.
Proof. reflexivity. Qed.

Example getProp_of_index : getProp (VArr [VNum "7"; VNum "8"]) "1" = Ok (VNum "8").
Proof. reflexivity. Qed.

Example getProp_of_length : getProp (VArr [VNum "7"; VNum "8"]) "length" = Ok (VNum "2").
Proof. reflexivity. Qed.

Example strictEq_is_typed : strictEq (VNum "1") (VStr "1") = false.
Proof. reflexivity. Qed.

Example strictEq_NaN : strictEq (VNum "NaN") (VNum "NaN") = false.
Proof. reflexivity. Qed.

(** The same object is equal to itself, and to no other object, whatever
    the members of the two. *)
Example strictEq_same_object :
  strictEq (VObj 4 [("k", VNum "1")]) (VObj 4 [("k", VNum "1")]) = true
  /\ strictEq (VObj 4 [("k", VNum "1")]) (VObj 6 [("k", VNum "1")]) = false.
Proof. split; reflexivity. Qed.

Example ToBoolean_falsy :
  List.map ToBoolean
    [VUndefined; VNull; VBool false; VNum "0"; VNum "NaN"; VStr ""; VArr []; VObj 1 []]
  = [false; false; false; false; false; false; true; true].
Proof. reflexivity. Qed.

End Values.

(** In a realm whose objects inherit a member, a read finds it when there
    is no own member under the key. *)
Example getProp_inherited :
  @getProp Examples.heirs (VObj 1 [("name", VStr "a")]) "id" = Ok (VStr "inherited")
  /\ @getProp Examples.heirs (VObj 1 [("id", VNum "1")]) "id" = Ok (VNum "1").
Proof. split; reflexivity. Qed.

(** * Properties of [Action.execute] *)

Ltac run_execute :=
  unfold Action.execute, bind, Action.doCommit, Action.callGenerator, tryFinally, tryCatch,
    Action.callAxios, Action.callHandler, ret, liftR, Action.loadingPayload;
  cbn [heap store trace emit setStore].

Ltac same_world :=
  unfold after, setStore, emit, loadingEvent, commitEvent, afterErrorCallback;
  cbn [heap store trace app];
  rewrite ?insert_insert_eq, <- ?app_assoc;
  reflexivity.

(** The case analysis of a run on what the store, the mappers and the
    callbacks do. *)
Ltac split_run :=
  repeat (match goal with
          | |- context [match commit ?c ?t ?p ?h ?s with _ => _ end] =>
              destruct (commit c t p h s)
          | |- context [if Action.commitState ?cfg then _ else _] =>
              destruct (Action.commitState cfg)
          | |- context [match stateMapper ?d ?v with _ => _ end] =>
              destruct (stateMapper d v)
          | |- context [match dataMapper ?d ?v with _ => _ end] =>
              destruct (dataMapper d v)
          | |- context [match handle ?f ?a ?x ?r with _ => _ end] =>
              destruct (handle f a x r)
          end; cbn [heap store trace emit setStore fst snd]).

Section Execute.

Context (cfg : Action.ActionConfig) (ctx : ActionContext) (actionData : Value) (w : World).

Let lm := Action.loadingMutation cfg.
Let flag := lm_state lm.
Let kind := Action.actionType cfg.
Let resource := original (Action.resourceName cfg).

(** Whatever the store does, a run starts with the commit of the loading
    flag with [true]. *)
Lemma execute_starts_with_loading :
  exists evs, trace (Action.execute cfg ctx actionData w).2
              = (trace w ++ loadingEvent lm true :: evs)%list.
Proof.
  run_execute.
  destruct (commit ctx _ _ _ _) as [st|e]; cbn [heap store trace emit setStore].
  2: { exists []. reflexivity. }
  destruct (Action.generateAxiosRequestConfig cfg _ _ _ _) as [def|e].
  2: { exists []. reflexivity. }
  destruct (Action.axios cfg _) as [res|e]; cbn [heap store trace emit setStore];
    split_run;
    unfold setStore, emit, loadingEvent; cbn [snd heap store trace];
    eexists; rewrite <- ?app_assoc; reflexivity.
Qed.

(** When the generation of the request descriptor throws, the exception
    leaves [execute]: no request is made, no callback is called and the
    loading flag is not committed again. *)
Lemma execute_generator_throws e :
  LoadingRegistered ctx lm ->
  Action.generateAxiosRequestConfig cfg (heap w) resource kind actionData = Throw e ->
  Action.execute cfg ctx actionData w
  = (Throw e, after w (<[ flag := VBool true ]> (store w)) [loadingEvent lm true]).
Proof.
  intros Hload Hgen. run_execute.
  rewrite Hload. cbn [heap store trace emit setStore].
  fold resource kind. rewrite Hgen. same_world.
Qed.

(** The same without an assumption on the store: the run ends with an
    exception after the first commit. *)
Lemma execute_generator_throws_any e :
  Action.generateAxiosRequestConfig cfg (heap w) resource kind actionData = Throw e ->
  exists e' st,
    Action.execute cfg ctx actionData w = (Throw e', after w st [loadingEvent lm true]).
Proof.
  intros Hgen. run_execute.
  destruct (commit ctx _ _ _ _) as [st|e0]; cbn [heap store trace emit setStore].
  - fold resource kind. rewrite Hgen. exists e, st. same_world.
  - exists e0, (store w). same_world.
Qed.

(** The run when the descriptor is generated and the HTTP call fails. *)
Lemma execute_failure_run (def : APIDefinition) (E : Value) :
  LoadingRegistered ctx lm ->
  Action.generateAxiosRequestConfig cfg (heap w) resource kind actionData = Ok def ->
  let request := {| req_method := method def; req_url := url def;
                    req_params := params def; req_data := data def |} in
  Action.axios cfg request = Throw E ->
  Action.execute cfg ctx actionData w
  = (afterErrorCallback (handle (Action.handleActionError cfg) kind E resource),
     after w (<[ flag := VBool false ]> (store w))
       [ loadingEvent lm true;
         EvRequest request;
         EvCallback (Action.handleActionError cfg) kind E resource;
         loadingEvent lm false ]).
Proof.
  intros Hload Hgen request Hax. run_execute.
  rewrite Hload. cbn [heap store trace emit setStore].
  fold resource kind. rewrite Hgen. fold request. rewrite Hax.
  cbn [heap store trace emit setStore].
  destruct (handle _ kind E resource); cbn [heap store trace emit setStore];
    rewrite Hload; same_world.
Qed.

(** The run when the descriptor is generated and the HTTP call succeeds,
    with the commit-state flag on: what is thrown inside the [try] block is
    handed to the error callback. *)
Lemma execute_success_run (def : APIDefinition) (res : AxiosResponse) :
  LoadingRegistered ctx lm ->
  Action.generateAxiosRequestConfig cfg (heap w) resource kind actionData = Ok def ->
  let request := {| req_method := method def; req_url := url def;
                    req_params := params def; req_data := data def |} in
  Action.axios cfg request = Ok res ->
  Action.commitState cfg = true ->
  let caught (st : State) (evs : list Event) (X : Value) :=
    (afterErrorCallback (handle (Action.handleActionError cfg) kind X resource),
     after w (<[ flag := VBool false ]> st)
       ([loadingEvent lm true; EvRequest request] ++ evs
        ++ [EvCallback (Action.handleActionError cfg) kind X resource;
            loadingEvent lm false])) in
  Action.execute cfg ctx actionData w
  = match stateMapper def (res_data res) with
    | Throw X => caught (store w) [] X
    | Ok mapped =>
        let committed := commitEvent (Action.mutationName cfg) mapped actionData in
        let called := EvCallback (Action.handleActionSuccess cfg) kind mapped resource in
        match commit ctx (Action.mutationName cfg)
                {| p_data := mapped; p_actionData := Some actionData |}
                (heap w) (<[ flag := VBool true ]> (store w)) with
        | Throw X => caught (store w) [committed] X
        | Ok st =>
            match handle (Action.handleActionSuccess cfg) kind mapped resource with
            | Throw X => caught st [committed; called] X
            | Ok _ =>
                match dataMapper def (res_data res) with
                | Throw X => caught st [committed; called] X
                | Ok out =>
                    (Ok out,
                     after w (<[ flag := VBool false ]> st)
                       [ loadingEvent lm true; EvRequest request; committed; called;
                         loadingEvent lm false ])
                end
            end
        end
    end.
Proof.
  intros Hload Hgen request Hax Hflag caught. subst caught. run_execute.
  rewrite Hload. cbn [heap store trace emit setStore].
  fold resource kind. rewrite Hgen. fold request. rewrite Hax, Hflag.
  cbn [heap store trace emit setStore].
  fold flag.
  destruct (stateMapper def (res_data res)) as [mapped|X];
    cbn [heap store trace emit setStore].
  2: { destruct (handle _ kind X resource); cbn [heap store trace emit setStore];
       rewrite Hload; same_world. }
  destruct (commit ctx (Action.mutationName cfg) _ (heap w) _) as [st|X];
    cbn [heap store trace emit setStore].
  2: { destruct (handle _ kind X resource); cbn [heap store trace emit setStore];
       rewrite Hload; same_world. }
  destruct (handle (Action.handleActionSuccess cfg) kind mapped resource) as [[]|X];
    cbn [heap store trace emit setStore].
  2: { destruct (handle _ kind X resource); cbn [heap store trace emit setStore];
       rewrite Hload; same_world. }
  destruct (dataMapper def (res_data res)) as [out|X]; cbn [heap store trace emit setStore].
  - rewrite Hload. same_world.
  - destruct (handle _ kind X resource); cbn [heap store trace emit setStore];
      rewrite Hload; same_world.
Qed.

(** The same with the commit-state flag off. *)
Lemma execute_quiet_run (def : APIDefinition) (res : AxiosResponse) :
  LoadingRegistered ctx lm ->
  Action.generateAxiosRequestConfig cfg (heap w) resource kind actionData = Ok def ->
  let request := {| req_method := method def; req_url := url def;
                    req_params := params def; req_data := data def |} in
  Action.axios cfg request = Ok res ->
  Action.commitState cfg = false ->
  let caught (evs : list Event) (X : Value) :=
    (afterErrorCallback (handle (Action.handleActionError cfg) kind X resource),
     after w (<[ flag := VBool false ]> (store w))
       ([loadingEvent lm true; EvRequest request] ++ evs
        ++ [EvCallback (Action.handleActionError cfg) kind X resource;
            loadingEvent lm false])) in
  Action.execute cfg ctx actionData w
  = match stateMapper def (res_data res) with
    | Throw X => caught [] X
    | Ok mapped =>
        let called := EvCallback (Action.handleActionSuccess cfg) kind mapped resource in
        match handle (Action.handleActionSuccess cfg) kind mapped resource with
        | Throw X => caught [called] X
        | Ok _ =>
            match dataMapper def (res_data res) with
            | Throw X => caught [called] X
            | Ok out =>
                (Ok out,
                 after w (<[ flag := VBool false ]> (store w))
                   [ loadingEvent lm true; EvRequest request; called; loadingEvent lm false ])
            end
        end
    end.
Proof.
  intros Hload Hgen request Hax Hflag caught. subst caught. run_execute.
  rewrite Hload. cbn [heap store trace emit setStore].
  fold resource kind. rewrite Hgen. fold request. rewrite Hax, Hflag.
  cbn [heap store trace emit setStore].
  fold flag.
  destruct (stateMapper def (res_data res)) as [mapped|X];
    cbn [heap store trace emit setStore].
  2: { destruct (handle _ kind X resource); cbn [heap store trace emit setStore];
       rewrite Hload; same_world. }
  destruct (handle (Action.handleActionSuccess cfg) kind mapped resource) as [[]|X];
    cbn [heap store trace emit setStore].
  2: { destruct (handle _ kind X resource); cbn [heap store trace emit setStore];
       rewrite Hload; same_world. }
  destruct (dataMapper def (res_data res)) as [out|X]; cbn [heap store trace emit setStore].
  - rewrite Hload. same_world.
  - destruct (handle _ kind X resource); cbn [heap store trace emit setStore];
      rewrite Hload; same_world.
Qed.

End Execute.

(** C2, as the code has it.  When the HTTP call fails with an error [E], the
    calls that [execute] makes are, in this order, the commit of the loading
    flag with [true], the request, one call of the error callback with the
    action kind, [E] and the resource name, and the commit of the loading
    flag with [false]; the primary mutation is not committed, and the store
    differs from the initial one in the loading flag only, which is [false].
    When the error callback returns, [execute] resolves, with [undefined];
    when the error callback throws, [execute] rejects with what it threw. *)
Theorem execute_http_failure (cfg : Action.ActionConfig) (ctx : ActionContext)
    (actionData : Value) (w : World) (def : APIDefinition) (E : Value) :
  LoadingRegistered ctx (Action.loadingMutation cfg) ->
  Action.generateAxiosRequestConfig cfg (heap w) (original (Action.resourceName cfg))
    (Action.actionType cfg) actionData = Ok def ->
  let request := {| req_method := method def; req_url := url def;
                    req_params := params def; req_data := data def |} in
  Action.axios cfg request = Throw E ->
  let lm := Action.loadingMutation cfg in
  let kind := Action.actionType cfg in
  let resource := original (Action.resourceName cfg) in
  Action.execute cfg ctx actionData w
  = (match handle (Action.handleActionError cfg) kind E resource with
     | Ok _ => Ok VUndefined
     | Throw X => Throw X
     end,
     after w (<[ lm_state lm := VBool false ]> (store w))
       [ loadingEvent lm true;
         EvRequest request;
         EvCallback (Action.handleActionError cfg) kind E resource;
         loadingEvent lm false ]).
Proof.
  intros Hload Hgen request Hax lm kind resource.
  exact (execute_failure_run cfg ctx actionData w def E Hload Hgen Hax).
Qed.

(** C10, as the code has it.  When the HTTP call succeeds while the
    commit-state flag is off, the only commits are those of the loading
    flag, and the store differs from the initial one in the loading flag
    only.  The state mapper runs, the success callback is called with the
    action kind, the state-mapped payload and the resource name, the data
    mapper runs and the data-mapped payload is returned.  When one of the
    three throws [X], what follows it is skipped: the error callback is
    called with the action kind, [X] and the resource name, and [execute]
    resolves with [undefined], or rejects with what the error callback
    throws. *)
Theorem execute_http_success_no_commit (cfg : Action.ActionConfig) (ctx : ActionContext)
    (actionData : Value) (w : World) (def : APIDefinition) (res : AxiosResponse) :
  LoadingRegistered ctx (Action.loadingMutation cfg) ->
  Action.generateAxiosRequestConfig cfg (heap w) (original (Action.resourceName cfg))
    (Action.actionType cfg) actionData = Ok def ->
  let request := {| req_method := method def; req_url := url def;
                    req_params := params def; req_data := data def |} in
  Action.axios cfg request = Ok res ->
  Action.commitState cfg = false ->
  let lm := Action.loadingMutation cfg in
  let kind := Action.actionType cfg in
  let resource := original (Action.resourceName cfg) in
  let released := after w (<[ lm_state lm := VBool false ]> (store w)) in
  let caught (evs : list Event) (X : Value) :=
    (match handle (Action.handleActionError cfg) kind X resource with
     | Ok _ => Ok VUndefined
     | Throw Y => Throw Y
     end,
     released ([loadingEvent lm true; EvRequest request] ++ evs
               ++ [EvCallback (Action.handleActionError cfg) kind X resource;
                   loadingEvent lm false])%list) in
  Action.execute cfg ctx actionData w
  = match stateMapper def (res_data res) with
    | Throw X => caught [] X
    | Ok mapped =>
        let called := EvCallback (Action.handleActionSuccess cfg) kind mapped resource in
        match handle (Action.handleActionSuccess cfg) kind mapped resource with
        | Throw X => caught [called] X
        | Ok _ =>
            match dataMapper def (res_data res) with
            | Throw X => caught [called] X
            | Ok out =>
                (Ok out,
                 released [loadingEvent lm true; EvRequest request; called; loadingEvent lm false])
            end
        end
    end.
Proof.
  intros Hload Hgen request Hax Hflag lm kind resource released caught.
  exact (execute_quiet_run cfg ctx actionData w def res Hload Hgen Hax Hflag).
Qed.

(** C3, as the code has it.  When the HTTP call succeeds while the
    commit-state flag is on, the state mapper runs and the primary mutation
    is committed with the state-mapped payload and the original input; then
    the success callback is called with the action kind, the state-mapped
    payload and the resource name, the data mapper runs and the data-mapped
    payload is returned.  When the state mapper, the commit, the success
    callback or the data mapper throws [X], what follows it is skipped: the
    error callback is called with the action kind, [X] and the resource
    name, and [execute] resolves with [undefined], or rejects with what the
    error callback throws.  The loading flag is committed with [false] at
    the end of all of them. *)
Theorem execute_http_success_commit (cfg : Action.ActionConfig) (ctx : ActionContext)
    (actionData : Value) (w : World) (def : APIDefinition) (res : AxiosResponse) :
  LoadingRegistered ctx (Action.loadingMutation cfg) ->
  Action.generateAxiosRequestConfig cfg (heap w) (original (Action.resourceName cfg))
    (Action.actionType cfg) actionData = Ok def ->
  let request := {| req_method := method def; req_url := url def;
                    req_params := params def; req_data := data def |} in
  Action.axios cfg request = Ok res ->
  Action.commitState cfg = true ->
  let lm := Action.loadingMutation cfg in
  let kind := Action.actionType cfg in
  let resource := original (Action.resourceName cfg) in
  let caught (st : State) (evs : list Event) (X : Value) :=
    (match handle (Action.handleActionError cfg) kind X resource with
     | Ok _ => Ok VUndefined
     | Throw Y => Throw Y
     end,
     after w (<[ lm_state lm := VBool false ]> st)
       ([loadingEvent lm true; EvRequest request] ++ evs
        ++ [EvCallback (Action.handleActionError cfg) kind X resource;
            loadingEvent lm false])) in
  Action.execute cfg ctx actionData w
  = match stateMapper def (res_data res) with
    | Throw X => caught (store w) [] X
    | Ok mapped =>
        let committed :=
          EvCommit (Action.mutationName cfg)
            {| p_data := mapped; p_actionData := Some actionData |} in
        let called := EvCallback (Action.handleActionSuccess cfg) kind mapped resource in
        match commit ctx (Action.mutationName cfg)
                {| p_data := mapped; p_actionData := Some actionData |}
                (heap w) (<[ lm_state lm := VBool true ]> (store w)) with
        | Throw X => caught (store w) [committed] X
        | Ok st =>
            match handle (Action.handleActionSuccess cfg) kind mapped resource with
            | Throw X => caught st [committed; called] X
            | Ok _ =>
                match dataMapper def (res_data res) with
                | Throw X => caught st [committed; called] X
                | Ok out =>
                    (Ok out,
                     after w (<[ lm_state lm := VBool false ]> st)
                       [ loadingEvent lm true; EvRequest request; committed; called;
                         loadingEvent lm false ])
                end
            end
        end
    end.
Proof.
  intros Hload Hgen request Hax Hflag lm kind resource caught.
  exact (execute_success_run cfg ctx actionData w def res Hload Hgen Hax Hflag).
Qed.

(** A run in which the descriptor is generated ends with the commit of the
    loading flag with [false], whatever the HTTP call, the mappers, the
    commits and the callbacks do. *)
Lemma execute_releases_after_generation (cfg : Action.ActionConfig) (ctx : ActionContext)
    (actionData : Value) (w : World) (def : APIDefinition) (st : State) :
  commit ctx (lm_name (Action.loadingMutation cfg)) (Action.loadingPayload true)
    (heap w) (store w) = Ok st ->
  Action.generateAxiosRequestConfig cfg (heap w) (original (Action.resourceName cfg))
    (Action.actionType cfg) actionData = Ok def ->
  exists evs,
    trace (Action.execute cfg ctx actionData w).2
    = (trace w ++ evs ++ [loadingEvent (Action.loadingMutation cfg) false])%list.
Proof.
  intros Hfirst Hgen. unfold Action.loadingPayload in Hfirst. run_execute.
  rewrite Hfirst. cbn [heap store trace emit setStore].
  rewrite Hgen.
  destruct (Action.axios cfg _) as [res|e]; cbn [heap store trace emit setStore];
    split_run;
    unfold setStore, emit, loadingEvent; cbn [snd heap store trace];
    rewrite <- ?app_assoc; rewrite ?app_assoc;
    match goal with
    | |- context [(?l ++ [?x])%list = _] => exists (drop (length (trace w)) l)
    end;
    rewrite <- ?app_assoc; rewrite ?drop_app_length; reflexivity.
Qed.

(** ** The runs of the module for [user] *)

Section UserModule.

Import Examples.

#[local] Existing Instance Examples.realm.

Context (ax : AxiosStatic).

Let this := instanceOf ax.

(** The actions of the examples are among those that the builder makes. *)
Lemma examples_are_default_actions :
  CrudModule.actions toUpperCase this !! 1%nat = Some (getUser this)
  /\ CrudModule.actions toUpperCase this !! 2%nat = Some (createUser this)
  /\ CrudModule.actions toUpperCase this !! 3%nat = Some (updateUser this).
Proof. repeat split. Qed.

End UserModule.

Section UserRuns.

#[local] Existing Instance Examples.realm.

Lemma execute_http_failure_witness :
  let this := Examples.instanceOf Examples.axiosDown in
  let w := Examples.registered (Examples.heapOf Examples.axiosDown) (Examples.moduleOf this) in
  Action.execute (Examples.createUser this) (Vuex.context (Examples.moduleOf this))
    (Examples.item 5 1 "b") w
  = (Ok VUndefined,
     after w (<[ "creatingUser" := VBool false ]> (store w))
       [ loadingEvent Examples.creating true;
         EvRequest Examples.postRequest;
         EvCallback Examples.onError createItem Examples.networkError "user";
         loadingEvent Examples.creating false ]).
Proof.
  intros this w.
  apply (execute_http_failure (Examples.createUser this) (Vuex.context (Examples.moduleOf this))
           (Examples.item 5 1 "b") w Examples.postUser Examples.networkError).
  - intros b h st. reflexivity.
  - reflexivity.
  - reflexivity.
Defined.

(** C2, as the specification has it, fails when the error callback of the
    user throws: the HTTP call of the create action fails, the error
    callback is called and throws, and [execute] rejects with what the
    callback threw. *)
Lemma error_callback_exception_leaves_execute :
  let this := Examples.carelessInstance Examples.axiosDown in
  let w := Examples.registered (Examples.carelessHeap Examples.axiosDown)
             (Examples.moduleOf this) in
  Action.axios (Examples.createUser this) Examples.postRequest = Throw Examples.networkError
  /\ Action.execute (Examples.createUser this) (Vuex.context (Examples.moduleOf this))
       (Examples.item 5 1 "b") w
     = (Throw Examples.callbackError,
        after w (<[ "creatingUser" := VBool false ]> (store w))
          [ loadingEvent Examples.creating true;
            EvRequest Examples.postRequest;
            EvCallback Examples.failing createItem Examples.networkError "user";
            loadingEvent Examples.creating false ]).
Proof.
  intros this w. split; [reflexivity|].
  rewrite (execute_failure_run (Examples.createUser this)
             (Vuex.context (Examples.moduleOf this)) (Examples.item 5 1 "b") w
             Examples.postUser Examples.networkError);
    [reflexivity | intros b h st; reflexivity | reflexivity | reflexivity].
Qed.

Lemma execute_http_success_no_commit_witness :
  let this := Examples.quietInstance Examples.axiosOk in
  let w := Examples.registered (Examples.quietHeap Examples.axiosOk) (Examples.moduleOf this) in
  Action.execute (Examples.getUser this) (Vuex.context (Examples.moduleOf this)) (VNum "1") w
  = (Ok (Examples.item 9 1 "b"),
     after w (<[ "gettingUser" := VBool false ]> (store w))
       [ loadingEvent Examples.getting true;
         EvRequest Examples.getRequest;
         EvCallback Examples.onSuccess getItem (Examples.item 9 1 "b") "user";
         loadingEvent Examples.getting false ]).
Proof.
  intros this w.
  apply (execute_http_success_no_commit (Examples.getUser this)
           (Vuex.context (Examples.moduleOf this)) (VNum "1") w Examples.getUser1
           {| res_data := Examples.item 9 1 "b" |}).
  - intros b h st. reflexivity.
  - reflexivity.
  - reflexivity.
  - reflexivity.
Defined.

(** C10, as the specification has it, fails when the success callback of the
    user throws: the HTTP call of the get action succeeds while the
    commit-state flag is off, the success callback is called and throws, the
    error callback is called with what it threw, and [execute] resolves with
    [undefined], not with the payload. *)
Lemma success_callback_exception_loses_result :
  let this := Examples.brittleInstance Examples.axiosOk in
  let cfg := Examples.getUser this in
  let w := Examples.registered (Examples.brittleHeap Examples.axiosOk)
             (Examples.moduleOf this) in
  Action.commitState cfg = false
  /\ Action.axios cfg Examples.getRequest = Ok {| res_data := Examples.item 9 1 "b" |}
  /\ Action.execute cfg (Vuex.context (Examples.moduleOf this)) (VNum "1") w
     = (Ok VUndefined,
        after w (<[ "gettingUser" := VBool false ]> (store w))
          [ loadingEvent Examples.getting true;
            EvRequest Examples.getRequest;
            EvCallback Examples.failing getItem (Examples.item 9 1 "b") "user";
            EvCallback Examples.onError getItem Examples.callbackError "user";
            loadingEvent Examples.getting false ]).
Proof.
  intros this cfg w. split; [reflexivity|]. split; [reflexivity|].
  rewrite (execute_quiet_run cfg (Vuex.context (Examples.moduleOf this)) (VNum "1") w
             Examples.getUser1 {| res_data := Examples.item 9 1 "b" |});
    [reflexivity | intros b h st; reflexivity | reflexivity | reflexivity | reflexivity].
Qed.

(** Creating the first user: the collection state is initialised and the
    payload appended to it. *)
Lemma execute_http_success_commit_witness :
  let this := Examples.instanceOf Examples.axiosOk in
  let w := Examples.registered (Examples.heapOf Examples.axiosOk) (Examples.moduleOf this) in
  Action.execute (Examples.createUser this) (Vuex.context (Examples.moduleOf this))
    (Examples.item 5 1 "b") w
  = (Ok (Examples.item 9 1 "b"),
     after w (<[ "creatingUser" := VBool false ]>
                (<[ "users" := VArr [Examples.item 9 1 "b"] ]>
                   (<[ "users" := VArr [] ]>
                      (<[ "creatingUser" := VBool true ]> (store w)))))
       [ loadingEvent Examples.creating true;
         EvRequest Examples.postRequest;
         commitEvent "ADD_USER" (Examples.item 9 1 "b") (Examples.item 5 1 "b");
         EvCallback Examples.onSuccess createItem (Examples.item 9 1 "b") "user";
         loadingEvent Examples.creating false ]).
Proof.
  intros this w.
  apply (execute_http_success_commit (Examples.createUser this)
           (Vuex.context (Examples.moduleOf this)) (Examples.item 5 1 "b") w Examples.postUser
           {| res_data := Examples.item 9 1 "b" |}).
  - intros b h st. reflexivity.
  - reflexivity.
  - reflexivity.
  - reflexivity.
Defined.

(** C3, as the specification has it, fails on the module as it is built:
    updating a user before the collection was fetched.  The HTTP call
    succeeds and the commit-state flag is on, but the collection state is
    still [null], the update-item mutation throws, and [execute] neither
    calls the success callback nor returns the payload. *)
Lemma success_outcome_fails_when_commit_throws :
  let this := Examples.instanceOf Examples.axiosOk in
  let cfg := Examples.updateUser this in
  let w := Examples.registered (Examples.heapOf Examples.axiosOk) (Examples.moduleOf this) in
  let payload := Examples.item 9 1 "b" in
  Action.commitState cfg = true
  /\ Action.generateAxiosRequestConfig cfg (heap w) "user" updateItem (Examples.item 5 1 "b")
     = Ok Examples.putUser
  /\ Action.axios cfg Examples.putRequest = Ok {| res_data := payload |}
  /\ stateMapper Examples.putUser payload = Ok payload
  /\ dataMapper Examples.putUser payload = Ok payload
  /\ Action.execute cfg (Vuex.context (Examples.moduleOf this)) (Examples.item 5 1 "b") w
     = (Ok VUndefined,
        after w (<[ "updatingUser" := VBool false ]> (store w))
          [ loadingEvent Examples.updating true;
            EvRequest Examples.putRequest;
            commitEvent "UPDATE_USER" payload (Examples.item 5 1 "b");
            EvCallback Examples.onError updateItem
              (VError "Error" "users state is not an array") "user";
            loadingEvent Examples.updating false ])
  /\ ~ spec_success_outcome cfg (Vuex.context (Examples.moduleOf this)) (Examples.item 5 1 "b") w
        payload payload.
Proof.
  intros this cfg w payload.
  assert (Hrun : Action.execute cfg (Vuex.context (Examples.moduleOf this))
                   (Examples.item 5 1 "b") w
                 = (Ok VUndefined,
                    after w (<[ "updatingUser" := VBool false ]> (store w))
                      [ loadingEvent Examples.updating true;
                        EvRequest Examples.putRequest;
                        commitEvent "UPDATE_USER" payload (Examples.item 5 1 "b");
                        EvCallback Examples.onError updateItem
                          (VError "Error" "users state is not an array") "user";
                        loadingEvent Examples.updating false ])).
  { rewrite (execute_success_run cfg (Vuex.context (Examples.moduleOf this))
               (Examples.item 5 1 "b") w Examples.putUser {| res_data := payload |});
      [reflexivity | intros b h st; reflexivity | reflexivity | reflexivity | reflexivity]. }
  repeat split; try exact Hrun.
  unfold spec_success_outcome. rewrite Hrun. intros [H _]. discriminate H.
Qed.

(** C1, on the code.  Dispatching the update action of the module without a
    payload: the generation of the request descriptor throws a [TypeError]
    after the loading flag was committed with [true]; the exception leaves
    [execute], the flag is not committed again and stays [true] in the
    store. *)
Lemma loading_flag_stuck_when_generator_throws :
  let this := Examples.instanceOf Examples.axiosOk in
  let w := Examples.registered (Examples.heapOf Examples.axiosOk) (Examples.moduleOf this) in
  exists w',
    Action.execute (Examples.updateUser this) (Vuex.context (Examples.moduleOf this)) VUndefined w
    = (Throw (VError "TypeError" "Cannot read properties of undefined (reading 'id')"), w')
    /\ readState (store w) "updatingUser" = VNull
    /\ readState (store w') "updatingUser" = VBool true
    /\ trace w' = [loadingEvent Examples.updating true].
Proof.
  intros this w. eexists. split.
  - apply (execute_generator_throws (Examples.updateUser this)
             (Vuex.context (Examples.moduleOf this)) VUndefined w).
    + intros b h st. reflexivity.
    + reflexivity.
  - repeat split.
Qed.

End UserRuns.

(** * Properties of the request descriptors *)

Lemma getProp_nullish `{Realm} (k : string) :
  getProp VUndefined k = Throw (cannotRead "undefined" k)
  /\ getProp VNull k = Throw (cannotRead "null" k).
Proof. split; reflexivity. Qed.

(** An own member is what a read gives. *)
Lemma getProp_own `{Realm} (address : positive) (fields : list (string * Value))
    (k : string) (x : Value) :
  ownField k fields = Some x -> getProp (VObj address fields) k = Ok x.
Proof. intros Hown. unfold getProp, ownMember. rewrite Hown. reflexivity. Qed.

(** C4, as the code has it.  Without a custom definition hook, the generator
    gives [GET /resource] for fetch-items and [POST /resource] with the input
    as body for create-item, whatever the input is.  For get-item and
    delete-item it gives [GET] and [DELETE /resource/input], where the input
    is converted to a string: a string and a number stand for themselves;
    when the conversion throws, the generator throws.  For update-item it
    gives [PUT /resource/id] with the input as body, where [id] is the
    string conversion of the id-attribute read from the input: an own member
    that is a string or a number stands for itself; the generator throws
    when the read or the conversion throws, which is a [TypeError] on an
    input that is [undefined] or [null].  Both mappers of a descriptor are
    the identity.  For any other action kind the generator throws an error,
    and an [execute] of an action of that kind ends with an exception after
    its first commit: no request is made. *)
Theorem default_request_descriptors `{Realm} (this : CrudModuleFields) (resource : string)
    (actionData : Value) :
  customAPIDefinition this = None ->
  let generate := CrudModule.generateAxiosRequestConfig this resource in
  let plain (m u : string) (d : Value) : Result APIDefinition :=
    Ok {| method := m; url := u; params := VUndefined; data := d;
          dataMapper := fun e => Ok e; stateMapper := fun e => Ok e |} in
  let under (segment : string) := "/" ++ resource ++ "/" ++ segment in
  generate fetchItems actionData = plain "GET" ("/" ++ resource) VUndefined
  /\ generate createItem actionData = plain "POST" ("/" ++ resource) actionData
  /\ generate getItem actionData
     = bindR (ToString actionData) (fun shown => plain "GET" (under shown) VUndefined)
  /\ generate deleteItem actionData
     = bindR (ToString actionData) (fun shown => plain "DELETE" (under shown) VUndefined)
  /\ generate updateItem actionData
     = bindR (getProp actionData (idAttribute this)) (fun id =>
         bindR (ToString id) (fun shown => plain "PUT" (under shown) actionData))
  /\ (forall shown,
        actionData = VStr shown \/ actionData = VNum shown ->
        generate getItem actionData = plain "GET" (under shown) VUndefined
        /\ generate deleteItem actionData = plain "DELETE" (under shown) VUndefined)
  /\ (forall address fields shown,
        actionData = VObj address fields ->
        ownField (idAttribute this) fields = Some (VStr shown)
        \/ ownField (idAttribute this) fields = Some (VNum shown) ->
        generate updateItem actionData = plain "PUT" (under shown) actionData)
  /\ (actionData = VUndefined ->
      generate updateItem actionData = Throw (cannotRead "undefined" (idAttribute this)))
  /\ (actionData = VNull ->
      generate updateItem actionData = Throw (cannotRead "null" (idAttribute this)))
  /\ forall shown,
       generate (invalidAction shown) actionData
       = Throw (VError "Error" (shown ++ " is not a valid CRUD action"))
       /\ forall (cfg : Action.ActionConfig) (ctx : ActionContext) (w : World) (self : loc),
            heap w !! self = Some this ->
            Action.generateAxiosRequestConfig cfg = CrudModule.generatorClosure self ->
            Action.actionType cfg = invalidAction shown ->
            original (Action.resourceName cfg) = resource ->
            exists e st,
              Action.execute cfg ctx actionData w
              = (Throw e, after w st [loadingEvent (Action.loadingMutation cfg) true]).
Proof.
  intros Hcustom generate plain under. subst generate plain under.
  unfold CrudModule.generateAxiosRequestConfig. rewrite Hcustom.
  split; [reflexivity|]. split; [reflexivity|].
  split. { destruct (ToString actionData); reflexivity. }
  split. { destruct (ToString actionData); reflexivity. }
  split.
  { destruct (getProp actionData (idAttribute this)) as [id|]; [|reflexivity].
    cbn [bindR]. destruct (ToString id); reflexivity. }
  split. { intros shown [-> | ->]; split; reflexivity. }
  split.
  { intros address fields shown -> [Hown | Hown];
      rewrite (getProp_own address fields _ _ Hown); reflexivity. }
  split. { intros ->. reflexivity. }
  split. { intros ->. reflexivity. }
  intros shown. split; [reflexivity|].
  intros cfg ctx w self Hself Hgen Hkind Hres.
  apply execute_generator_throws_any
    with (e := VError "Error" (shown ++ " is not a valid CRUD action")).
  rewrite Hgen, Hkind, Hres. unfold CrudModule.generatorClosure. rewrite Hself.
  unfold CrudModule.generateAxiosRequestConfig. reflexivity.
Qed.

Section UserDescriptors.

#[local] Existing Instance Examples.realm.

Lemma default_request_descriptors_witness :
  let this := Examples.instanceOf Examples.axiosOk in
  CrudModule.generateAxiosRequestConfig this "user" updateItem (Examples.item 5 1 "b")
  = Ok Examples.putUser
  /\ CrudModule.generateAxiosRequestConfig this "user" getItem (VNum "1e+21")
     = Ok (descriptor "GET" "/user/1e+21" VUndefined)
  /\ CrudModule.generateAxiosRequestConfig this "user" (invalidAction "purge")
       (Examples.item 5 1 "b")
     = Throw (VError "Error" "purge is not a valid CRUD action").
Proof.
  intros this.
  destruct (default_request_descriptors this "user" (Examples.item 5 1 "b") eq_refl)
    as (_ & _ & _ & _ & _ & _ & Hupdate & _ & _ & Hother).
  destruct (default_request_descriptors this "user" (VNum "1e+21") eq_refl)
    as (_ & _ & _ & _ & _ & Hget & _).
  split; [|split].
  - apply (Hupdate 5%positive [("id", VNum "1"); ("name", VStr "b")] "1" eq_refl).
    right. reflexivity.
  - apply (Hget "1e+21"). right. reflexivity.
  - exact (proj1 (Hother "purge")).
Defined.

(** C4, as the specification has it, fails for the update action on an input
    without members: for [undefined] the generator produces no descriptor,
    it throws the [TypeError] of the read of the id-attribute. *)
Lemma update_descriptor_needs_readable_input :
  let this := Examples.instanceOf Examples.axiosOk in
  customAPIDefinition this = None
  /\ CrudModule.generateAxiosRequestConfig this "user" updateItem VUndefined
     = Throw (VError "TypeError" "Cannot read properties of undefined (reading 'id')")
  /\ forall definition,
       CrudModule.generateAxiosRequestConfig this "user" updateItem VUndefined <> Ok definition.
Proof.
  intros this. split; [reflexivity|]. split; [reflexivity|].
  intros definition H. discriminate H.
Qed.

(** An action of a kind that is none of the five, run on the module: the
    exception of the generator leaves [execute] before any request. *)
Lemma invalid_action_makes_no_request :
  let this := Examples.instanceOf Examples.axiosOk in
  let w := Examples.registered (Examples.heapOf Examples.axiosOk) (Examples.moduleOf this) in
  Action.execute (Examples.purgeUser this) (Vuex.context (Examples.moduleOf this)) VNull w
  = (Throw (VError "Error" "purge is not a valid CRUD action"),
     after w (<[ "updatingUser" := VBool true ]> (store w))
       [loadingEvent Examples.updating true]).
Proof.
  intros this w.
  apply (execute_generator_throws (Examples.purgeUser this)
           (Vuex.context (Examples.moduleOf this)) VNull w).
  - intros b h st. reflexivity.
  - reflexivity.
Qed.

End UserDescriptors.

(** In a realm whose objects inherit a member [id] and cannot be converted
    to a string, the update of an object without an own [id] is sent to the
    inherited one, and the get of an object throws. *)
Lemma descriptors_follow_the_realm :
  let this := Examples.instanceOf Examples.axiosOk in
  url <$> (match @CrudModule.generateAxiosRequestConfig Examples.heirs this "user" updateItem
                   (VObj 1 [("name", VStr "a")]) with
           | Ok definition => Some definition
           | Throw _ => None
           end)
  = Some "/user/inherited"
  /\ @CrudModule.generateAxiosRequestConfig Examples.heirs this "user" getItem (VObj 1 [])
     = Throw (VError "TypeError" "Cannot convert object to primitive value").
Proof. split; reflexivity. Qed.

(** * Properties of the default mutations *)

Lemma findIndex_first (p : Value -> Result bool) (l : list Value) (i : nat) (e : Value) :
  l !! i = Some e ->
  p e = Ok true ->
  (forall j e', (j < i)%nat -> l !! j = Some e' -> p e' = Ok false) ->
  findIndex p l = Ok (Some i).
Proof.
  revert i. induction l as [|x l IH]; intros i Hi He Hbefore.
  - discriminate Hi.
  - destruct i as [|i]; cbn in Hi |- *.
    + inversion Hi; subst. rewrite He. reflexivity.
    + rewrite (Hbefore 0%nat x) by (lia || reflexivity). cbn.
      rewrite (IH i Hi He).
      * reflexivity.
      * intros j e' Hj Hl. apply (Hbefore (S j) e'); [lia | exact Hl].
Qed.

Lemma findIndex_none (p : Value -> Result bool) (l : list Value) :
  (forall e, e ∈ l -> p e = Ok false) -> findIndex p l = Ok None.
Proof.
  induction l as [|x l IH]; intros Hall; cbn.
  - reflexivity.
  - rewrite (Hall x) by apply list_elem_of_here. cbn.
    rewrite IH; [reflexivity|].
    intros e He. apply Hall. apply list_elem_of_further. exact He.
Qed.

(** The search stops at the first element on which the predicate throws. *)
Lemma findIndex_throws (p : Value -> Result bool) (l : list Value) (i : nat) (e X : Value) :
  l !! i = Some e ->
  p e = Throw X ->
  (forall j e', (j < i)%nat -> l !! j = Some e' -> p e' = Ok false) ->
  findIndex p l = Throw X.
Proof.
  revert i. induction l as [|x l IH]; intros i Hi He Hbefore.
  - discriminate Hi.
  - destruct i as [|i]; cbn in Hi |- *.
    + inversion Hi; subst. rewrite He. reflexivity.
    + rewrite (Hbefore 0%nat x) by (lia || reflexivity). cbn.
      rewrite (IH i Hi He).
      * reflexivity.
      * intros j e' Hj Hl. apply (Hbefore (S j) e'); [lia | exact Hl].
Qed.

Lemma filterR_total (p : Value -> Result bool) (l : list Value) :
  (forall e, e ∈ l -> exists b, p e = Ok b) ->
  filterR p l
  = Ok (List.filter (fun e => match p e with Ok b => b | Throw _ => false end) l).
Proof.
  induction l as [|x l IH]; intros Hall; cbn.
  - reflexivity.
  - destruct (Hall x) as [b Hb]; [apply list_elem_of_here|].
    rewrite Hb. cbn. rewrite IH.
    + cbn. destruct b; reflexivity.
    + intros e He. apply Hall. apply list_elem_of_further. exact He.
Qed.

(** The first element that cannot be read makes the filter throw. *)
Lemma filterR_throws (p : Value -> Result bool) (l1 l2 : list Value) (x err : Value) :
  (forall e, e ∈ l1 -> exists b, p e = Ok b) ->
  p x = Throw err ->
  filterR p (l1 ++ x :: l2) = Throw err.
Proof.
  induction l1 as [|y l1 IH]; intros Hall Hx; cbn.
  - rewrite Hx. reflexivity.
  - destruct (Hall y) as [b Hb]; [apply list_elem_of_here|].
    rewrite Hb. cbn. rewrite IH; [reflexivity| |exact Hx].
    intros e He. apply Hall. apply list_elem_of_further. exact He.
Qed.

Section Mutations.

Context {realm : Realm}.
Context (toLowerCase : string -> string) (this : CrudModuleFields).

Let items := CrudModule.s_items (CrudModule.states toLowerCase this).

(** The filter of the delete-item mutation on a collection whose elements
    can be read. *)
Lemma otherId_keeps (actionData : Value) (elems : list Value) :
  (forall e, e ∈ elems -> exists id, getProp e (idAttribute this) = Ok id) ->
  filterR (CrudModule.otherId this actionData) elems
  = Ok (List.filter (keeps this actionData) elems).
Proof.
  intros Hread. rewrite filterR_total.
  - f_equal. apply filter_ext_in. intros e He.
    destruct (Hread e) as [id Hid]; [apply list_elem_of_In; exact He|].
    unfold keeps, CrudModule.otherId. rewrite Hid. reflexivity.
  - intros e He. destruct (Hread e He) as [id Hid].
    unfold CrudModule.otherId. rewrite Hid. eexists. reflexivity.
Qed.

Lemma otherId_throws (actionData : Value) (before rest : list Value) (x X : Value) :
  (forall e, e ∈ before -> exists id, getProp e (idAttribute this) = Ok id) ->
  getProp x (idAttribute this) = Throw X ->
  filterR (CrudModule.otherId this actionData) (before ++ x :: rest) = Throw X.
Proof.
  intros Hread Hx. apply filterR_throws.
  - intros e He. destruct (Hread e He) as [id Hid].
    unfold CrudModule.otherId. rewrite Hid. eexists. reflexivity.
  - unfold CrudModule.otherId. rewrite Hx. reflexivity.
Qed.

(** C5, as the code has it.  The add-item mutation initialises a collection
    state that is falsy (absent, [null], [false], zero or the empty string)
    and stores the payload in it; it appends the payload to a collection
    state that is a sequence; and it throws, leaving the state as it is, when
    the collection state is truthy and not a sequence. *)
Theorem addItem_cases (st : State) (payload : Payload) :
  let current := readState st items in
  (ToBoolean current = false ->
     CrudModule.addItem toLowerCase this st payload
     = Ok (<[ items := VArr [p_data payload] ]> st))
  /\ (forall elems, current = VArr elems ->
       CrudModule.addItem toLowerCase this st payload
       = Ok (<[ items := VArr (elems ++ [p_data payload]) ]> st))
  /\ (ToBoolean current = true -> isArrayValue current = false ->
       CrudModule.addItem toLowerCase this st payload
       = Throw (CrudModule.notAnArray toLowerCase this)).
Proof.
  intros current. subst current. unfold CrudModule.addItem. fold items.
  repeat split.
  - intros Hfalsy. rewrite Hfalsy. cbn [negb].
    unfold readState at 1. rewrite lookup_insert_eq. cbn [default id app].
    rewrite insert_insert_eq. reflexivity.
  - intros elems Harr. rewrite Harr. cbn [ToBoolean negb]. rewrite Harr. reflexivity.
  - intros Htruthy Hnot. rewrite Htruthy. cbn [negb].
    destruct (readState st items); try reflexivity. discriminate Hnot.
Qed.

(** C6, as the code has it.  The update-item mutation throws when the
    collection state is not a sequence.  When it is one, the elements are
    visited in order, and of each the id-attribute is read and compared with
    the id-attribute read from the payload, by strict equality.  The first
    element whose id-attribute equals the one of the payload is replaced by
    the payload, in place.  The state is left as it is when the sequence is
    empty and when the id-attribute of no element equals the one of the
    payload.  When a read throws before an element matched, the mutation
    throws what the read threw and leaves the state as it is: a [TypeError]
    for an element that is [undefined] or [null], and for a payload that is
    [undefined] or [null] on a sequence that is not empty. *)
Theorem updateItem_cases (st : State) (payload : Payload) :
  let current := readState st items in
  let key := idAttribute this in
  let data := p_data payload in
  let update := CrudModule.updateItemMutation toLowerCase this st payload in
  (isArrayValue current = false ->
     update = Throw (VError "Error" (items ++ " state is not an array")))
  /\ (forall elems, current = VArr elems ->
       (forall i e a b,
          elems !! i = Some e ->
          getProp e key = Ok a -> getProp data key = Ok b -> strictEq a b = true ->
          (forall j e', (j < i)%nat -> elems !! j = Some e' ->
                        exists a', getProp e' key = Ok a' /\ strictEq a' b = false) ->
          update = Ok (<[ items := VArr (<[ i := data ]> elems) ]> st))
       /\ (elems = [] -> update = Ok st)
       /\ (forall b,
             getProp data key = Ok b ->
             (forall e, e ∈ elems -> exists a, getProp e key = Ok a /\ strictEq a b = false) ->
             update = Ok st)
       /\ (forall i e X,
             elems !! i = Some e ->
             getProp e key = Throw X ->
             (forall j e', (j < i)%nat -> elems !! j = Some e' ->
                           exists a' b, getProp e' key = Ok a' /\ getProp data key = Ok b
                                        /\ strictEq a' b = false) ->
             update = Throw X)
       /\ (forall e rest a X,
             elems = e :: rest ->
             getProp e key = Ok a -> getProp data key = Throw X ->
             update = Throw X)
       /\ (forall e rest a,
             elems = e :: rest -> getProp e key = Ok a ->
             (data = VUndefined -> update = Throw (cannotRead "undefined" key))
             /\ (data = VNull -> update = Throw (cannotRead "null" key)))
       /\ (forall rest,
             (elems = VUndefined :: rest -> update = Throw (cannotRead "undefined" key))
             /\ (elems = VNull :: rest -> update = Throw (cannotRead "null" key)))).
Proof.
  intros current key data update. subst current key data update.
  unfold CrudModule.updateItemMutation, CrudModule.notAnArray. fold items.
  split.
  - intros Hnot. destruct (readState st items); try reflexivity. discriminate Hnot.
  - intros elems Harr. rewrite Harr.
    assert (Hunread : forall e rest a X,
              elems = e :: rest ->
              getProp e (idAttribute this) = Ok a ->
              getProp (p_data payload) (idAttribute this) = Throw X ->
              bindR (findIndex (CrudModule.sameId this (p_data payload)) elems)
                (fun index =>
                   match index with
                   | Some i => Ok (<[ items := VArr (<[ i := p_data payload ]> elems) ]> st)
                   | None => Ok st
                   end) = Throw X).
    { intros e rest a X -> He Hd. cbn [findIndex]. unfold CrudModule.sameId at 1.
      rewrite He, Hd. reflexivity. }
    split.
    { intros i e a b Hi Ha Hb Heq Hbefore.
      rewrite (findIndex_first _ elems i e Hi); [reflexivity | |].
      - unfold CrudModule.sameId. rewrite Ha, Hb. cbn [bindR]. rewrite Heq. reflexivity.
      - intros j e' Hj Hl. destruct (Hbefore j e' Hj Hl) as (a' & Ha' & Hne).
        unfold CrudModule.sameId. rewrite Ha', Hb. cbn [bindR]. rewrite Hne. reflexivity. }
    split. { intros ->. reflexivity. }
    split.
    { intros b Hb Hnone. rewrite (findIndex_none _ elems); [reflexivity|].
      intros e He. destruct (Hnone e He) as (a & Ha & Hne).
      unfold CrudModule.sameId. rewrite Ha, Hb. cbn [bindR]. rewrite Hne. reflexivity. }
    split.
    { intros i e X Hi He Hbefore.
      rewrite (findIndex_throws _ elems i e X Hi); [reflexivity | |].
      - unfold CrudModule.sameId. rewrite He. reflexivity.
      - intros j e' Hj Hl. destruct (Hbefore j e' Hj Hl) as (a' & b & Ha' & Hb & Hne).
        unfold CrudModule.sameId. rewrite Ha', Hb. cbn [bindR]. rewrite Hne. reflexivity. }
    split; [exact Hunread|].
    split.
    { intros e rest a He Ha. split; intros Hd.
      - apply (Hunread e rest a _ He Ha). rewrite Hd. reflexivity.
      - apply (Hunread e rest a _ He Ha). rewrite Hd. reflexivity. }
    intros rest. split; intros ->; reflexivity.
Qed.

(** C7, as the code has it.  The delete-item mutation leaves the state as it
    is, without an error, when the collection state is not a sequence.  When
    it is a sequence whose elements all have their id-attribute read, the
    collection state becomes the sequence of the elements whose id-attribute
    is not strictly equal to the original input of the action, in their
    order; the data of the payload plays no part.  When the id-attribute of
    an element cannot be read, the mutation throws what the first such read
    throws and leaves the state as it is: a [TypeError] for an element that
    is [undefined] or [null]. *)
Theorem deleteItem_cases (st : State) (data actionData : Value) :
  let current := readState st items in
  let key := idAttribute this in
  let payload := {| p_data := data; p_actionData := Some actionData |} in
  let delete := CrudModule.deleteItemMutation toLowerCase this st payload in
  let readable (l : list Value) := forall e, e ∈ l -> exists id, getProp e key = Ok id in
  (isArrayValue current = false -> delete = Ok st)
  /\ (forall elems, current = VArr elems ->
       (readable elems ->
          delete = Ok (<[ items := VArr (List.filter (keeps this actionData) elems) ]> st)
          /\ forall e, e ∈ List.filter (keeps this actionData) elems <->
                       e ∈ elems
                       /\ exists id, getProp e key = Ok id /\ strictEq id actionData = false)
       /\ (forall before x rest X,
             elems = (before ++ x :: rest)%list -> readable before ->
             getProp x key = Throw X ->
             delete = Throw X)
       /\ (forall before rest,
             readable before ->
             (elems = (before ++ VUndefined :: rest)%list ->
              delete = Throw (cannotRead "undefined" key))
             /\ (elems = (before ++ VNull :: rest)%list ->
                 delete = Throw (cannotRead "null" key)))).
Proof.
  intros current key payload delete readable. subst current key delete readable.
  unfold CrudModule.deleteItemMutation. fold items.
  split.
  - intros Hnot. destruct (readState st items); try reflexivity. discriminate Hnot.
  - intros elems Harr. rewrite Harr. cbn [p_actionData payload default]. unfold Datatypes.id.
    split.
    { intros Hread. split.
      + rewrite (otherId_keeps actionData elems Hread). reflexivity.
      + intros e. rewrite !list_elem_of_In, filter_In. unfold keeps.
        split.
        * intros [He Hkeep]. split; [exact He|].
          destruct (getProp e (idAttribute this)) as [id|]; [|discriminate Hkeep].
          exists id. split; [reflexivity|].
          destruct (strictEq id actionData); [discriminate Hkeep | reflexivity].
        * intros [He (id & Hid & Hne)]. split; [exact He|].
          rewrite Hid, Hne. reflexivity. }
    split.
    { intros before x rest X -> Hread Hx.
      rewrite (otherId_throws actionData before rest x X Hread Hx). reflexivity. }
    intros before rest Hread. split; intros ->.
    + rewrite (otherId_throws actionData before rest VUndefined _ Hread
                 (proj1 (getProp_nullish _))). reflexivity.
    + rewrite (otherId_throws actionData before rest VNull _ Hread
                 (proj2 (getProp_nullish _))). reflexivity.
Qed.

End Mutations.

(** The mutations on the module for [user]. *)

Section UserMutations.

#[local] Existing Instance Examples.realm.

Lemma addItem_cases_witness :
  let this := Examples.instanceOf Examples.axiosOk in
  let st : State := {[ "users" := VArr [VObj 1 [("id", VNum "1")]] ]} in
  CrudModule.addItem Examples.toLowerCase this st
    {| p_data := VObj 2 [("id", VNum "2")]; p_actionData := None |}
  = Ok (<[ "users" := VArr [VObj 1 [("id", VNum "1")]; VObj 2 [("id", VNum "2")]] ]> st).
Proof.
  intros this st.
  apply (proj1 (proj2 (addItem_cases Examples.toLowerCase this st
                         {| p_data := VObj 2 [("id", VNum "2")]; p_actionData := None |}))
           [VObj 1 [("id", VNum "1")]]).
  reflexivity.
Defined.

(** C5, as the specification has it, fails on a collection state that is
    present, is not a sequence and is falsy: no error is signalled and the
    state is replaced by a sequence that holds the payload. *)
Lemma addItem_replaces_falsy_state :
  let this := Examples.instanceOf Examples.axiosOk in
  let st : State := {[ "users" := VNum "0" ]} in
  let payload := {| p_data := VObj 2 [("id", VNum "2")]; p_actionData := None |} in
  st !! "users" = Some (VNum "0")
  /\ isArrayValue (VNum "0") = false
  /\ spec_addItem Examples.toLowerCase this st payload
     = Throw (VError "Error" "users state is not an array")
  /\ CrudModule.addItem Examples.toLowerCase this st payload
     = Ok (<[ "users" := VArr [VObj 2 [("id", VNum "2")]] ]> st)
  /\ CrudModule.addItem Examples.toLowerCase this st payload
     <> spec_addItem Examples.toLowerCase this st payload.
Proof.
  intros this st payload.
  assert (Hcode : CrudModule.addItem Examples.toLowerCase this st payload
                  = Ok (<[ "users" := VArr [VObj 2 [("id", VNum "2")]] ]> st))
    by (vm_compute; reflexivity).
  assert (Hspec : spec_addItem Examples.toLowerCase this st payload
                  = Throw (VError "Error" "users state is not an array"))
    by (vm_compute; reflexivity).
  repeat split; try assumption.
  rewrite Hcode, Hspec. discriminate.
Qed.

(** The examples of the specification, and a collection in which the id of
    the first element is the string ["1"]: the number [1] of the payload
    does not match it, and the second element is the one replaced. *)
Lemma updateItem_cases_witness :
  let this := Examples.instanceOf Examples.axiosOk in
  let st : State := {[ "users" := VArr [Examples.item 1 1 "a"] ]} in
  let typed : State :=
    {[ "users" := VArr [VObj 3 [("id", VStr "1")]; Examples.item 1 1 "a"] ]} in
  CrudModule.updateItemMutation Examples.toLowerCase this st
    {| p_data := Examples.item 5 1 "b"; p_actionData := None |}
  = Ok (<[ "users" := VArr [Examples.item 5 1 "b"] ]> st)
  /\ CrudModule.updateItemMutation Examples.toLowerCase this st
       {| p_data := Examples.item 6 9 "z"; p_actionData := None |}
     = Ok st
  /\ CrudModule.updateItemMutation Examples.toLowerCase this typed
       {| p_data := Examples.item 5 1 "b"; p_actionData := None |}
     = Ok (<[ "users" := VArr [VObj 3 [("id", VStr "1")]; Examples.item 5 1 "b"] ]> typed).
Proof.
  intros this st typed. split; [|split].
  - apply (proj1 (proj2 (updateItem_cases Examples.toLowerCase this st
                           {| p_data := Examples.item 5 1 "b"; p_actionData := None |})
                    [Examples.item 1 1 "a"] eq_refl)
             0%nat (Examples.item 1 1 "a") (VNum "1") (VNum "1")).
    + reflexivity.
    + reflexivity.
    + reflexivity.
    + reflexivity.
    + intros j e' Hj. lia.
  - apply (proj1 (proj2 (proj2 (proj2 (updateItem_cases Examples.toLowerCase this st
                           {| p_data := Examples.item 6 9 "z"; p_actionData := None |})
                    [Examples.item 1 1 "a"] eq_refl)))
             (VNum "9")).
    + reflexivity.
    + intros e He. apply list_elem_of_singleton in He. subst e.
      exists (VNum "1"). split; reflexivity.
  - apply (proj1 (proj2 (updateItem_cases Examples.toLowerCase this typed
                           {| p_data := Examples.item 5 1 "b"; p_actionData := None |})
                    [VObj 3 [("id", VStr "1")]; Examples.item 1 1 "a"] eq_refl)
             1%nat (Examples.item 1 1 "a") (VNum "1") (VNum "1")).
    + reflexivity.
    + reflexivity.
    + reflexivity.
    + reflexivity.
    + intros [|j] e' Hj Hl; [|lia]. inversion Hl; subst e'.
      exists (VStr "1"). split; reflexivity.
Defined.

(** C6, as the specification has it, fails for a payload without members:
    on a collection that holds an item, committing update-item with [null]
    neither replaces an element nor completes with the collection
    unchanged, it throws the [TypeError] of the read of the id-attribute. *)
Lemma updateItem_throws_on_null_payload :
  let this := Examples.instanceOf Examples.axiosOk in
  let st : State := {[ "users" := VArr [Examples.item 1 1 "a"] ]} in
  isArrayValue (readState st "users") = true
  /\ CrudModule.updateItemMutation Examples.toLowerCase this st
       {| p_data := VNull; p_actionData := None |}
     = Throw (VError "TypeError" "Cannot read properties of null (reading 'id')")
  /\ forall st1,
       CrudModule.updateItemMutation Examples.toLowerCase this st
         {| p_data := VNull; p_actionData := None |} <> Ok st1.
Proof.
  intros this st.
  assert (Hcode : CrudModule.updateItemMutation Examples.toLowerCase this st
                    {| p_data := VNull; p_actionData := None |}
                  = Throw (VError "TypeError" "Cannot read properties of null (reading 'id')"))
    by (vm_compute; reflexivity).
  split; [reflexivity|]. split; [exact Hcode|].
  intros st1 H. rewrite Hcode in H. discriminate H.
Qed.

(** The example of the specification, and the same collection with the
    string ["1"] as the input: the number [1] of the first element is not
    strictly equal to it, and nothing is removed. *)
Lemma deleteItem_cases_witness :
  let this := Examples.instanceOf Examples.axiosOk in
  let st : State :=
    {[ "users" := VArr [VObj 1 [("id", VNum "1")]; VObj 2 [("id", VNum "2")]] ]} in
  CrudModule.deleteItemMutation Examples.toLowerCase this st
    {| p_data := VNull; p_actionData := Some (VNum "1") |}
  = Ok (<[ "users" := VArr [VObj 2 [("id", VNum "2")]] ]> st)
  /\ CrudModule.deleteItemMutation Examples.toLowerCase this st
       {| p_data := VNull; p_actionData := Some (VStr "1") |}
     = Ok (<[ "users" := VArr [VObj 1 [("id", VNum "1")]; VObj 2 [("id", VNum "2")]] ]> st).
Proof.
  intros this st.
  assert (Hread : forall e, e ∈ [VObj 1 [("id", VNum "1")]; VObj 2 [("id", VNum "2")]] ->
                    exists id, getProp e "id" = Ok id).
  { intros e He. apply elem_of_cons in He as [-> | He].
    - eexists. reflexivity.
    - apply list_elem_of_singleton in He. subst e. eexists. reflexivity. }
  split.
  - apply (proj1 (proj2 (deleteItem_cases Examples.toLowerCase this st VNull (VNum "1"))
                    [VObj 1 [("id", VNum "1")]; VObj 2 [("id", VNum "2")]] eq_refl)).
    exact Hread.
  - apply (proj1 (proj2 (deleteItem_cases Examples.toLowerCase this st VNull (VStr "1"))
                    [VObj 1 [("id", VNum "1")]; VObj 2 [("id", VNum "2")]] eq_refl)).
    exact Hread.
Defined.

(** C7, as the specification has it, fails on a sequence that holds an
    element without members: with [null] in the collection, committing
    delete-item removes nothing, it throws the [TypeError] of the read of
    the id-attribute. *)
Lemma deleteItem_throws_on_null_element :
  let this := Examples.instanceOf Examples.axiosOk in
  let st : State := {[ "users" := VArr [VObj 1 [("id", VNum "1")]; VNull] ]} in
  isArrayValue (readState st "users") = true
  /\ CrudModule.deleteItemMutation Examples.toLowerCase this st
       {| p_data := VNull; p_actionData := Some (VNum "1") |}
     = Throw (VError "TypeError" "Cannot read properties of null (reading 'id')")
  /\ forall st1,
       CrudModule.deleteItemMutation Examples.toLowerCase this st
         {| p_data := VNull; p_actionData := Some (VNum "1") |} <> Ok st1.
Proof.
  intros this st.
  assert (Hcode : CrudModule.deleteItemMutation Examples.toLowerCase this st
                    {| p_data := VNull; p_actionData := Some (VNum "1") |}
                  = Throw (VError "TypeError" "Cannot read properties of null (reading 'id')"))
    by (vm_compute; reflexivity).
  split; [reflexivity|]. split; [exact Hcode|].
  intros st1 H. rewrite Hcode in H. discriminate H.
Qed.

(** An element that is [null] cannot be read: the update and the delete
    mutation throw the [TypeError] of the read. *)
Lemma mutations_throw_on_null_element :
  let this := Examples.instanceOf Examples.axiosOk in
  let st : State := {[ "users" := VArr [VNull] ]} in
  CrudModule.updateItemMutation Examples.toLowerCase this st
    {| p_data := Examples.item 5 1 "b"; p_actionData := None |}
  = Throw (cannotRead "null" "id")
  /\ CrudModule.deleteItemMutation Examples.toLowerCase this st
       {| p_data := VNull; p_actionData := Some (VNum "1") |}
     = Throw (cannotRead "null" "id").
Proof. split; vm_compute; reflexivity. Qed.

End UserMutations.

(** * Properties of the module builder *)

Section Builder.

Context {realm : Realm}.
Context (toUpperCase toLowerCase : string -> string).



End Builder.

Section UserBuilder.

#[local] Existing Instance Examples.realm.


End UserBuilder.

(** * Properties of the factory *)

Section Factory.

Context {realm : Realm}.
Context (toUpperCase toLowerCase : string -> string).
Context (newResourceName : string -> ResourceName).

Let create := CrudModuleFactory.create toUpperCase toLowerCase newResourceName.
Let getModuleOf := CrudModule.getModuleOf toUpperCase toLowerCase.
Let copyFor (t : CrudModuleFields) (resource : string) : CrudModuleFields :=
  CrudModule.withResourceName (newResourceName resource) t.

(** [create] allocates one object, the copy of the instance with the new
    resource name, and returns the module of that object. *)
Lemma create_allocates (factory : CrudModuleFactory.CrudModuleFactory) (resource : string)
    (h : Heap) (t : CrudModuleFields) :
  h !! CrudModuleFactory.instance factory = Some t ->
  create factory resource h
  = Some (getModuleOf (length h) (copyFor t resource), (h ++ [copyFor t resource])%list).
Proof.
  intros Ht. unfold create, CrudModuleFactory.create. rewrite Ht.
  unfold CrudModule.assignField, CrudModule.getModule.
  rewrite (alter_app_r_alt _ h [t] (length h)) by lia.
  rewrite Nat.sub_diag. cbn [alter list_alter].
  rewrite list_lookup_middle by reflexivity. reflexivity.
Qed.

(** The modules of two objects with the same fields are the same. *)
Lemma sameDescriptor_copies (h : Heap) (l1 l2 : loc) (t : CrudModuleFields) :
  h !! l1 = Some t -> h !! l2 = Some t ->
  sameDescriptor h (getModuleOf l1 t) (getModuleOf l2 t).
Proof.
  intros H1 H2. unfold sameDescriptor, getModuleOf, CrudModule.getModuleOf.
  cbn [Vuex.namespaced Vuex.state Vuex.actions Vuex.getters Vuex.mutations].
  repeat split.
  - unfold CrudModule.buildMutations. rewrite !dom_insert_L. reflexivity.
  - intros type payload st. unfold Vuex.commitOf, CrudModule.buildMutations.
    rewrite !lookup_insert.
    repeat case_decide; unfold CrudModule.boundTo; rewrite ?H1, ?H2; reflexivity.
Qed.

(** C9.  A [create] on a template leaves every object of the heap as it is,
    the template among them.  Two calls for the same resource name allocate
    two objects, each with its own resource descriptor, and return two module
    descriptions that are the same.  A call for another resource in between
    changes neither the template nor the object of the first call, and a call
    for the first name after it returns the same module description again. *)
Theorem create_keeps_template (factory : CrudModuleFactory.CrudModuleFactory)
    (resource : string) (h : Heap) (t : CrudModuleFields) :
  h !! CrudModuleFactory.instance factory = Some t ->
  exists m1 h1 m2 h2,
    create factory resource h = Some (m1, h1)
    /\ create factory resource h1 = Some (m2, h2)
    /\ (forall l c, h !! l = Some c -> h1 !! l = Some c /\ h2 !! l = Some c)
    /\ h2 !! CrudModuleFactory.instance factory = Some t
    /\ h2 !! length h = Some (copyFor t resource)
    /\ h2 !! S (length h) = Some (copyFor t resource)
    /\ length h2 = S (S (length h))
    /\ sameDescriptor h2 m1 m2
    /\ forall other, exists m3 h3 m4 h4,
         create factory other h1 = Some (m3, h3)
         /\ create factory resource h3 = Some (m4, h4)
         /\ h4 !! CrudModuleFactory.instance factory = Some t
         /\ h4 !! length h = Some (copyFor t resource)
         /\ h4 !! S (length h) = Some (copyFor t other)
         /\ sameDescriptor h4 m1 m4.
Proof.
  intros Ht.
  assert (Ht1 : (h ++ [copyFor t resource])%list !! CrudModuleFactory.instance factory = Some t)
    by (apply lookup_app_l_Some; exact Ht).
  eexists _, _, _, _.
  split; [apply (create_allocates factory resource h t Ht)|].
  split; [apply (create_allocates factory resource _ t Ht1)|].
  split.
  { intros l c Hl. split; repeat apply lookup_app_l_Some; exact Hl. }
  split. { apply lookup_app_l_Some. exact Ht1. }
  split.
  { apply lookup_app_l_Some. apply list_lookup_middle. reflexivity. }
  split.
  { apply list_lookup_middle. rewrite length_app. cbn. lia. }
  split. { rewrite !length_app. cbn. lia. }
  split.
  { rewrite length_app. cbn [length]. replace (length h + 1)%nat with (S (length h)) by lia.
    apply sameDescriptor_copies.
    - apply lookup_app_l_Some. apply list_lookup_middle. reflexivity.
    - apply list_lookup_middle. rewrite length_app. cbn. lia. }
  intros other.
  assert (Ht3 : ((h ++ [copyFor t resource]) ++ [copyFor t other])%list
                !! CrudModuleFactory.instance factory = Some t)
    by (apply lookup_app_l_Some; exact Ht1).
  eexists _, _, _, _.
  split; [apply (create_allocates factory other _ t Ht1)|].
  split; [apply (create_allocates factory resource _ t Ht3)|].
  split. { apply lookup_app_l_Some. exact Ht3. }
  split.
  { do 2 apply lookup_app_l_Some. apply list_lookup_middle. reflexivity. }
  split.
  { apply lookup_app_l_Some. apply list_lookup_middle. rewrite length_app. cbn. lia. }
  rewrite !length_app. cbn [length].
  replace (length h + 1 + 1)%nat with (S (S (length h))) by lia.
  apply sameDescriptor_copies.
  - do 2 apply lookup_app_l_Some. apply list_lookup_middle. reflexivity.
  - apply list_lookup_middle. rewrite !length_app. cbn. lia.
Qed.

End Factory.

Section UserFactory.

#[local] Existing Instance Examples.realm.

Lemma create_keeps_template_witness :
  let h := Examples.heapOf Examples.axiosOk in
  exists m1 h1,
    CrudModuleFactory.create Examples.toUpperCase Examples.toLowerCase Examples.newResourceName
      (CrudModuleFactory.getFactory 0) "product" h = Some (m1, h1)
    /\ h1 !! 0%nat = Some (Examples.instanceOf Examples.axiosOk)
    /\ plural (resourceName (Examples.instanceOf Examples.axiosOk)) = "Users"
    /\ (plural ∘ resourceName) <$> h1 !! 1%nat = Some "Products".
Proof.
  intros h.
  destruct (create_keeps_template Examples.toUpperCase Examples.toLowerCase
              Examples.newResourceName (CrudModuleFactory.getFactory 0) "product" h
              (Examples.instanceOf Examples.axiosOk) eq_refl)
    as (m1 & h1 & m2 & h2 & Hfirst & Hsecond & Hframe & _).
  exists m1, h1. split; [exact Hfirst|].
  split; [apply (Hframe 0%nat); reflexivity|].
  split; [reflexivity|].
  cbn in Hfirst. inversion Hfirst. reflexivity.
Defined.

End UserFactory.


(** * Further properties of the default mutations *)

(** Equality of values as trees is equality. *)
Lemma sameValue_eq : forall a b, sameValue a b = true -> a = b.
Proof.
  fix IH 1. intros a b. destruct a, b; cbn; try discriminate; intros H; try reflexivity.
  - apply Bool.eqb_prop in H. congruence.
  - apply String.eqb_eq in H. congruence.
  - apply String.eqb_eq in H. congruence.
  - f_equal. revert elems0 H. induction elems as [|x l IHl]; intros [|y l'] H;
      try discriminate; [reflexivity|].
    apply andb_prop in H as [Hx Hr]. f_equal; [apply IH; exact Hx | apply IHl; exact Hr].
  - apply andb_prop in H as [Hp Hf]. apply Pos.eqb_eq in Hp. subst. f_equal.
    revert fields0 Hf. induction fields as [|[k x] l IHl]; intros [|[k' y] l'] H;
      try discriminate; [reflexivity|].
    apply andb_prop in H as [H Hr]. apply andb_prop in H as [Hk Hx].
    apply String.eqb_eq in Hk. subst.
    f_equal; [f_equal; apply IH; exact Hx | apply IHl; exact Hr].
  - apply andb_prop in H as [Hn Hm]. apply String.eqb_eq in Hn, Hm. congruence.
Qed.

(** Two values that are strictly equal are the same value. *)
Lemma strictEq_true_eq (a b : Value) : strictEq a b = true -> a = b.
Proof.
  destruct a, b; cbn [strictEq]; try discriminate; intros H; try reflexivity.
  - apply Bool.eqb_prop in H. congruence.
  - apply andb_prop in H as [H _]. apply String.eqb_eq in H. congruence.
  - apply String.eqb_eq in H. congruence.
  - apply sameValue_eq. exact H.
Qed.

Lemma readState_array (st : State) (k : string) (elems : list Value) :
  readState st k = VArr elems -> st !! k = Some (VArr elems).
Proof.
  unfold readState. destruct (st !! k) as [v|]; cbn; [congruence | discriminate].
Qed.

Lemma readState_insert (st : State) (k : string) (v : Value) :
  readState (<[ k := v ]> st) k = v.
Proof. unfold readState. rewrite lookup_insert_eq. reflexivity. Qed.

Lemma findIndex_Some_inv (p : Value -> Result bool) (l : list Value) (i : nat) :
  findIndex p l = Ok (Some i) ->
  exists e, l !! i = Some e /\ p e = Ok true
            /\ forall j e', (j < i)%nat -> l !! j = Some e' -> p e' = Ok false.
Proof.
  revert i. induction l as [|x l IH]; intros i H; cbn in H.
  - discriminate H.
  - destruct (p x) as [[|]|err] eqn:Hx; cbn in H.
    + inversion H; subst. exists x. repeat split; [exact Hx|]. intros j e' Hj. lia.
    + destruct (findIndex p l) as [[k|]|err] eqn:Hrest; cbn in H; try discriminate H.
      inversion H; subst.
      destruct (IH k eq_refl) as (e & He & Hpe & Hbefore).
      exists e. repeat split; [exact He | exact Hpe |].
      intros [|j] e' Hj Hl; cbn in Hl.
      * inversion Hl; subst. exact Hx.
      * apply (Hbefore j e'); [lia | exact Hl].
    + discriminate H.
Qed.

Lemma filterR_Ok_inv (p : Value -> Result bool) (l r : list Value) :
  filterR p l = Ok r ->
  (forall e, e ∈ l -> exists b, p e = Ok b)
  /\ r = List.filter (fun e => match p e with Ok b => b | Throw _ => false end) l.
Proof.
  revert r. induction l as [|x l IH]; intros r H; cbn in H.
  - inversion H. split; [|reflexivity]. intros e He. apply elem_of_nil in He. destruct He.
  - destruct (p x) as [b|err] eqn:Hx; cbn in H; [|discriminate H].
    destruct (filterR p l) as [r'|err] eqn:Hrest; cbn in H; [|discriminate H].
    destruct (IH r' eq_refl) as [Hall Hr']. inversion H; subst. split.
    + intros e He. apply elem_of_cons in He as [-> | He]; [eauto | apply Hall; exact He].
    + cbn. rewrite Hx. destruct b; reflexivity.
Qed.

Lemma filter_filter_same {A} (f : A -> bool) (l : list A) :
  List.filter f (List.filter f l) = List.filter f l.
Proof.
  induction l as [|x l IH]; cbn; [reflexivity|].
  destruct (f x) eqn:Hx; cbn; rewrite ?Hx, IH; reflexivity.
Qed.

Section MutationAlgebra.

Context {realm : Realm}.
Context (toLowerCase : string -> string) (this : CrudModuleFields).

Let items := CrudModule.s_items (CrudModule.states toLowerCase this).
Let addItem := CrudModule.addItem toLowerCase this.
Let updateItemMutation := CrudModule.updateItemMutation toLowerCase this.
Let deleteItemMutation := CrudModule.deleteItemMutation toLowerCase this.

Lemma sameId_true_inv (data e : Value) :
  CrudModule.sameId this data e = Ok true ->
  exists id, getProp e (idAttribute this) = Ok id /\ getProp data (idAttribute this) = Ok id.
Proof.
  unfold CrudModule.sameId. intros H.
  destruct (getProp e (idAttribute this)) as [a|] eqn:Ha; cbn in H; [|discriminate H].
  destruct (getProp data (idAttribute this)) as [b|] eqn:Hb; cbn in H; [|discriminate H].
  inversion H as [Heq]. apply strictEq_true_eq in Heq. subst b. exists a. split; reflexivity.
Qed.

(** What a completed update-item did: nothing, or it wrote the payload at
    the first index whose element has the id-attribute of the payload. *)
Lemma updateItem_Ok_inv (st st1 : State) (payload : Payload) :
  updateItemMutation st payload = Ok st1 ->
  exists elems,
    readState st items = VArr elems
    /\ (st1 = st
        \/ exists i e,
             elems !! i = Some e
             /\ CrudModule.sameId this (p_data payload) e = Ok true
             /\ (forall j e', (j < i)%nat -> elems !! j = Some e' ->
                              CrudModule.sameId this (p_data payload) e' = Ok false)
             /\ st1 = <[ items := VArr (<[ i := p_data payload ]> elems) ]> st).
Proof.
  unfold updateItemMutation, CrudModule.updateItemMutation. fold items. intros H.
  destruct (readState st items) as [| | | | |elems| |] eqn:Hcur; try discriminate H.
  exists elems. split; [reflexivity|].
  destruct (findIndex _ elems) as [[i|]|err] eqn:Hfind; cbn in H; try discriminate H.
  - right. destruct (findIndex_Some_inv _ _ _ Hfind) as (e & He & Hpe & Hbefore).
    exists i, e. inversion H. auto.
  - left. inversion H. reflexivity.
Qed.

(** X7.  Update-item is idempotent: committing the same payload a second time
    completes and leaves the state of the first commit. *)
Theorem updateItem_idempotent (st st1 : State) (payload : Payload) :
  updateItemMutation st payload = Ok st1 ->
  updateItemMutation st1 payload = Ok st1.
Proof.
  intros H. destruct (updateItem_Ok_inv st st1 payload H) as (elems & Hcur & [-> | Hrep]).
  - exact H.
  - destruct Hrep as (i & e & He & Hpe & Hbefore & ->).
    destruct (sameId_true_inv _ _ Hpe) as (id & _ & Hid).
    assert (Hlt : (i < length elems)%nat) by (eapply lookup_lt_Some; exact He).
    unfold updateItemMutation, CrudModule.updateItemMutation. fold items.
    rewrite readState_insert.
    rewrite (findIndex_first _ _ i (p_data payload)).
    + cbn [bindR]. rewrite list_insert_insert_eq, insert_insert_eq. reflexivity.
    + apply list_lookup_insert_eq. exact Hlt.
    + unfold CrudModule.sameId. rewrite Hid. cbn.
      destruct (strictEq id id) eqn:Hrefl; [reflexivity|].
      unfold CrudModule.sameId in Hpe.
      destruct (getProp e (idAttribute this)) as [a|]; cbn in Hpe; [|discriminate Hpe].
      rewrite Hid in Hpe. cbn in Hpe. inversion Hpe as [Heq].
      pose proof (strictEq_true_eq _ _ Heq) as ->. congruence.
    + intros j e' Hj Hl. rewrite list_lookup_insert_ne in Hl by lia.
      apply (Hbefore j e' Hj Hl).
Qed.

(** X8.  A completed update-item keeps the collection a sequence of the same
    length in which every position has the id-attribute it had before. *)
Theorem updateItem_preserves_ids (st st1 : State) (payload : Payload) :
  updateItemMutation st payload = Ok st1 ->
  exists elems elems',
    readState st items = VArr elems
    /\ readState st1 items = VArr elems'
    /\ length elems' = length elems
    /\ idsOf this elems' = idsOf this elems.
Proof.
  intros H. destruct (updateItem_Ok_inv st st1 payload H) as (elems & Hcur & [-> | Hrep]).
  - exists elems, elems. auto.
  - destruct Hrep as (i & e & He & Hpe & _ & ->).
    destruct (sameId_true_inv _ _ Hpe) as (id & Hide & Hidd).
    exists elems, (<[ i := p_data payload ]> elems).
    split; [exact Hcur|]. split; [apply readState_insert|].
    split; [apply length_insert|].
    unfold idsOf.
    change (List.map ?f ?l) with (f <$> l).
    rewrite list_fmap_insert. apply list_insert_id.
    rewrite list_lookup_fmap, He. cbn. congruence.
Qed.

(** What a completed delete-item did. *)
Lemma deleteItem_Ok_inv (st st1 : State) (payload : Payload) :
  deleteItemMutation st payload = Ok st1 ->
  (isArrayValue (readState st items) = false /\ st1 = st)
  \/ exists elems,
       readState st items = VArr elems
       /\ (forall e, e ∈ elems -> exists id, getProp e (idAttribute this) = Ok id)
       /\ st1 = <[ items := VArr (List.filter
                                    (keeps this (default VUndefined (p_actionData payload)))
                                    elems) ]> st.
Proof.
  unfold deleteItemMutation, CrudModule.deleteItemMutation. fold items. intros H.
  destruct (readState st items) as [| | | | |elems| |] eqn:Hcur;
    try (left; split; [reflexivity | inversion H; reflexivity]).
  right. exists elems. split; [reflexivity|].
  destruct (filterR _ elems) as [kept|err] eqn:Hf; cbn in H; [|discriminate H].
  destruct (filterR_Ok_inv _ _ _ Hf) as [Hall _].
  assert (Hread : forall e, e ∈ elems -> exists id, getProp e (idAttribute this) = Ok id).
  { intros e He. destruct (Hall e He) as [b Hb]. unfold CrudModule.otherId in Hb.
    destruct (getProp e (idAttribute this)) as [id|]; [eauto | discriminate Hb]. }
  rewrite (otherId_keeps this _ elems Hread) in Hf.
  inversion Hf; subst kept. inversion H. split; [exact Hread | reflexivity].
Qed.

(** X6.  After a completed delete-item no element of the collection has the
    input of the action as its id-attribute, the elements that remain are
    elements of the collection before, and committing the same delete again
    changes nothing. *)
Theorem deleteItem_removes_all (st st1 : State) (payload : Payload) :
  deleteItemMutation st payload = Ok st1 ->
  deleteItemMutation st1 payload = Ok st1
  /\ forall elems, readState st items = VArr elems ->
       exists kept,
         readState st1 items = VArr kept
         /\ kept `sublist_of` elems
         /\ forall e, e ∈ kept ->
              exists id, getProp e (idAttribute this) = Ok id
                         /\ strictEq id (default VUndefined (p_actionData payload)) = false.
Proof.
  intros H. destruct (deleteItem_Ok_inv st st1 payload H) as [[Hnot ->] | Hseq].
  - split; [exact H|]. intros elems Hcur. rewrite Hcur in Hnot. discriminate Hnot.
  - destruct Hseq as (elems & Hcur & Hread & ->).
    set (x := default VUndefined (p_actionData payload)).
    assert (Hkept : forall e, e ∈ List.filter (keeps this x) elems ->
                      exists id, getProp e (idAttribute this) = Ok id
                                 /\ strictEq id x = false).
    { intros e He. apply list_elem_of_In, filter_In in He as [_ Hk].
      unfold keeps in Hk.
      destruct (getProp e (idAttribute this)) as [id|]; [|discriminate Hk].
      exists id. split; [reflexivity|].
      destruct (strictEq id x); [discriminate Hk | reflexivity]. }
    split.
    + unfold deleteItemMutation, CrudModule.deleteItemMutation. fold items.
      rewrite readState_insert. fold x.
      rewrite otherId_keeps.
      * cbn [bindR]. rewrite filter_filter_same, insert_insert_eq. reflexivity.
      * intros e He. destruct (Hkept e He) as (id & Hid & _). eauto.
    + intros elems' Hcur'. rewrite Hcur in Hcur'. inversion Hcur'; subst elems'.
      exists (List.filter (keeps this x) elems).
      split; [apply readState_insert|]. split; [|exact Hkept].
      clear. induction elems as [|e l IH]; cbn; [constructor|].
      destruct (keeps this x e); [apply sublist_skip | apply sublist_cons]; exact IH.
Qed.

End MutationAlgebra.

Section MutationComposition.

Context {realm : Realm}.
Context (toLowerCase : string -> string) (this : CrudModuleFields).

Let items := CrudModule.s_items (CrudModule.states toLowerCase this).
Let addItem := CrudModule.addItem toLowerCase this.
Let updateItemMutation := CrudModule.updateItemMutation toLowerCase this.
Let deleteItemMutation := CrudModule.deleteItemMutation toLowerCase this.

(** X5.  Adding an item and then deleting it by its id gives the state back:
    on a collection none of whose elements has the id [x], committing
    add-item with a payload whose id-attribute is [x] and then delete-item
    with the input [x] ends in the state before the two. *)
Theorem addItem_then_deleteItem (st : State) (elems : list Value) (data x : Value)
    (other : option Value) :
  readState st items = VArr elems ->
  (forall e, e ∈ elems ->
     exists id, getProp e (idAttribute this) = Ok id /\ strictEq id x = false) ->
  (exists id, getProp data (idAttribute this) = Ok id /\ strictEq id x = true) ->
  bindR (addItem st {| p_data := data; p_actionData := other |})
    (fun st1 => deleteItemMutation st1 {| p_data := VNull; p_actionData := Some x |})
  = Ok st.
Proof.
  intros Hcur Hothers (id & Hid & Hsame).
  unfold addItem, CrudModule.addItem. fold items. rewrite Hcur. cbn [ToBoolean negb].
  rewrite Hcur. cbn [bindR p_data].
  unfold deleteItemMutation, CrudModule.deleteItemMutation. fold items.
  rewrite readState_insert. cbn [p_actionData default]. unfold Datatypes.id.
  rewrite otherId_keeps.
  - cbn [bindR]. rewrite insert_insert_eq.
    rewrite List.filter_app. cbn [List.filter].
    unfold keeps at 2. rewrite Hid, Hsame. cbn [negb].
    rewrite app_nil_r.
    replace (List.filter _ elems) with elems.
    + f_equal. apply insert_id. apply readState_array. exact Hcur.
    + clear Hcur. induction elems as [|e l IH]; [reflexivity|]. cbn [List.filter].
      destruct (Hothers e) as (ide & Hide & Hne); [apply list_elem_of_here|].
      unfold keeps at 1. rewrite Hide, Hne. cbn [negb].
      f_equal. apply IH. intros e' He'. apply Hothers. apply list_elem_of_further. exact He'.
  - intros e He. apply elem_of_app in He as [He | He].
    + destruct (Hothers e He) as (ide & Hide & _). eauto.
    + apply list_elem_of_singleton in He. subst e. eauto.
Qed.

(** X9.  Once the collection state is a sequence it stays one under the
    add, update and delete mutations: add-item then always completes, and a
    completed add, update or delete leaves a sequence.  A completed add-item
    leaves a sequence whatever the state was. *)
Theorem collection_stays_sequence (st : State) (payload : Payload) :
  (forall st1, addItem st payload = Ok st1 -> isArrayValue (readState st1 items) = true)
  /\ (isArrayValue (readState st items) = true ->
      (exists st1, addItem st payload = Ok st1)
      /\ (forall st1, updateItemMutation st payload = Ok st1 ->
                      isArrayValue (readState st1 items) = true)
      /\ (forall st1, deleteItemMutation st payload = Ok st1 ->
                      isArrayValue (readState st1 items) = true)).
Proof.
  split.
  - unfold addItem, CrudModule.addItem. fold items. intros st1 H.
    destruct (readState (if negb (ToBoolean (readState st items)) then _ else st) items)
      as [| | | | |elems| |]; try discriminate H.
    inversion H. rewrite readState_insert. reflexivity.
  - intros Harr.
    destruct (readState st items) as [| | | | |elems| |] eqn:Hcur; try discriminate Harr.
    split; [|split].
    + unfold addItem, CrudModule.addItem. fold items. rewrite Hcur. cbn [ToBoolean negb].
      rewrite Hcur. eexists. reflexivity.
    + intros st1 H.
      destruct (updateItem_Ok_inv toLowerCase this st st1 payload H)
        as (l & Hl & [-> | (i & e & _ & _ & _ & ->)]).
      * fold items in Hl. rewrite Hl. reflexivity.
      * fold items. rewrite readState_insert. reflexivity.
    + intros st1 H.
      destruct (deleteItem_Ok_inv toLowerCase this st st1 payload H)
        as [[Hnot _] | (l & _ & _ & ->)].
      * fold items in Hnot. rewrite Hcur in Hnot. discriminate Hnot.
      * fold items. rewrite readState_insert. reflexivity.
Qed.

End MutationComposition.

Section UserCollections.

#[local] Existing Instance Examples.realm.

Lemma updateItem_idempotent_witness :
  let this := Examples.instanceOf Examples.axiosOk in
  let st : State := {[ "users" := VArr [Examples.item 1 1 "a"; Examples.item 2 2 "c"] ]} in
  let payload := {| p_data := Examples.item 4 2 "d"; p_actionData := None |} in
  let st1 : State := <[ "users" := VArr [Examples.item 1 1 "a"; Examples.item 4 2 "d"] ]> st in
  CrudModule.updateItemMutation Examples.toLowerCase this st1 payload = Ok st1.
Proof.
  intros this st payload st1.
  apply (updateItem_idempotent Examples.toLowerCase this st st1 payload).
  reflexivity.
Defined.

Lemma updateItem_preserves_ids_witness :
  let this := Examples.instanceOf Examples.axiosOk in
  let st : State := {[ "users" := VArr [Examples.item 1 1 "a"; Examples.item 2 2 "c"] ]} in
  let payload := {| p_data := Examples.item 4 2 "d"; p_actionData := None |} in
  let st1 : State := <[ "users" := VArr [Examples.item 1 1 "a"; Examples.item 4 2 "d"] ]> st in
  exists elems elems',
    readState st "users" = VArr elems
    /\ readState st1 "users" = VArr elems'
    /\ length elems' = length elems
    /\ idsOf this elems' = idsOf this elems.
Proof.
  intros this st payload st1.
  apply (updateItem_preserves_ids Examples.toLowerCase this st st1 payload).
  reflexivity.
Defined.

Lemma deleteItem_removes_all_witness :
  let this := Examples.instanceOf Examples.axiosOk in
  let st : State :=
    {[ "users" := VArr [Examples.item 1 1 "a"; Examples.item 2 2 "c"; Examples.item 3 1 "e"] ]} in
  let payload := {| p_data := VNull; p_actionData := Some (VNum "1") |} in
  let st1 : State := <[ "users" := VArr [Examples.item 2 2 "c"] ]> st in
  CrudModule.deleteItemMutation Examples.toLowerCase this st1 payload = Ok st1.
Proof.
  intros this st payload st1.
  apply (deleteItem_removes_all Examples.toLowerCase this st st1 payload).
  reflexivity.
Defined.

Lemma addItem_then_deleteItem_witness :
  let this := Examples.instanceOf Examples.axiosOk in
  let st : State := {[ "users" := VArr [Examples.item 1 1 "a"] ]} in
  bindR (CrudModule.addItem Examples.toLowerCase this st
           {| p_data := Examples.item 2 2 "c"; p_actionData := None |})
    (fun st1 => CrudModule.deleteItemMutation Examples.toLowerCase this st1
                  {| p_data := VNull; p_actionData := Some (VNum "2") |})
  = Ok st.
Proof.
  intros this st.
  apply (addItem_then_deleteItem Examples.toLowerCase this st [Examples.item 1 1 "a"]
           (Examples.item 2 2 "c") (VNum "2") None).
  - reflexivity.
  - intros e He. apply list_elem_of_singleton in He. subst e.
    exists (VNum "1"). split; reflexivity.
  - exists (VNum "2"). split; reflexivity.
Defined.

Lemma collection_stays_sequence_witness :
  let this := Examples.instanceOf Examples.axiosOk in
  let st : State := {[ "users" := VArr [] ]} in
  exists st1,
    CrudModule.addItem Examples.toLowerCase this st
      {| p_data := Examples.item 1 1 "a"; p_actionData := None |} = Ok st1.
Proof.
  intros this st.
  apply (proj2 (collection_stays_sequence Examples.toLowerCase this st
                  {| p_data := Examples.item 1 1 "a"; p_actionData := None |})).
  reflexivity.
Defined.

End UserCollections.


(** * Further properties of the builder *)

Ltac names_differ :=
  let H := fresh in intros H; cbn in H; discriminate H.

Section BuilderState.

Context {realm : Realm}.
Context (toUpperCase toLowerCase : string -> string).

Let getModuleOf := CrudModule.getModuleOf toUpperCase toLowerCase.

Lemma buildState_entries (this : CrudModuleFields) (k : string) (v : Value) :
  CrudModule.buildState toUpperCase toLowerCase this !! k = Some v ->
  additionalState this !! k = Some v \/ v = VNull.
Proof.
  intros H.
  unfold CrudModule.buildState, CrudModule.assign, Action.state in H.
  cbn [foldl CrudModule.actions] in H.
  apply lookup_union_Some_raw in H as [H | [_ H]]; [left; exact H | right].
  repeat (apply lookup_union_Some_raw in H as [H | [_ H]]);
    try (apply lookup_singleton_Some in H as [_ H]; symmetry; exact H).
  - rewrite lookup_empty in H. discriminate H.
  - rewrite lookup_empty in H. discriminate H.
Qed.

(** X1.  Every entry of the initial state of a module is [null], unless it
    is an entry of the additional state of the user; the collection, the
    current item and the loading flags of the five actions are entries of
    it. *)
Theorem default_state_is_null (this : CrudModuleFields) :
  let st := CrudModule.buildState toUpperCase toLowerCase this in
  let names := CrudModule.states toLowerCase this in
  (forall k v, st !! k = Some v -> additionalState this !! k = Some v \/ v = VNull)
  /\ (forall k,
        k ∈ CrudModule.s_items names :: CrudModule.s_currentItem names
            :: ((lm_state ∘ Action.loadingMutation) <$> CrudModule.actions toUpperCase this) ->
        additionalState this !! k = None ->
        st !! k = Some VNull).
Proof.
  intros st names.
  pose proof (buildState_entries this) as Hnull. fold st in Hnull.
  split; [exact Hnull|].
  intros k Hk Hfree.
  assert (Hdom : is_Some (st !! k)).
  { subst st names. rewrite <- elem_of_dom.
    unfold CrudModule.buildState, CrudModule.assign, Action.state.
    cbn [foldl CrudModule.actions fmap list_fmap] in Hk |- *.
    rewrite !dom_union_L, !dom_singleton_L.
    repeat (apply elem_of_cons in Hk; destruct Hk as [Hk | Hk]; [rewrite Hk|]);
      [| | | | | | | apply elem_of_nil in Hk; destruct Hk];
      cbn; rewrite !elem_of_union, !elem_of_singleton; tauto. }
  destruct Hdom as [v Hv]. rewrite Hv.
  destruct (Hnull k v Hv) as [Hadd | ->]; [congruence | reflexivity].
Qed.

Lemma module_runs_loading (self : loc) (this : CrudModuleFields)
    (a : Action.ActionConfig) :
  a ∈ CrudModule.actions toUpperCase this ->
  lm_name (Action.loadingMutation a)
  <> CrudModule.m_setItems (CrudModule.mutations toUpperCase this) ->
  LoadingRegistered (Vuex.context (getModuleOf self this)) (Action.loadingMutation a).
Proof.
  intros Ha Hne b h st.
  unfold getModuleOf, CrudModule.getModuleOf, Vuex.context.
  cbn [commit Vuex.mutations].
  unfold Vuex.commitOf, CrudModule.buildMutations.
  assert (Hne' : CrudModule.m_setItems (CrudModule.mutations toUpperCase this)
                 <> lm_name (Action.loadingMutation a))
    by (intros H; apply Hne; symmetry; exact H).
  unfold CrudModule.actions in Ha.
  repeat (apply elem_of_cons in Ha as [-> | Ha]);
    [| | | | | apply elem_of_nil in Ha; destruct Ha];
    cbn [Action.loadingMutation ActionFactory.create lm_name lm_state] in Hne' |- *;
    unfold CrudModule.mutations;
    cbn [CrudModule.m_setItems CrudModule.m_setCurrentItem CrudModule.m_addItem
         CrudModule.m_updateItem CrudModule.m_deleteItem];
    rewrite !lookup_insert_ne by (names_differ || exact Hne');
    unfold CrudModule.assign, Action.mutations;
    cbn [foldl CrudModule.actions Action.loadingMutation ActionFactory.create lm_name];
    rewrite ?lookup_union_r by (apply lookup_singleton_ne; names_differ);
    (erewrite lookup_union_Some_l by apply lookup_singleton_eq);
    reflexivity.
Qed.

(** X2.  The store of a module runs the loading mutation of each of its five
    default actions under the type of that mutation, unless that type is the
    one of the set-items mutation: the commit completes and writes the
    boolean under the loading flag, nothing else. *)
Theorem loading_registered_by_builder (self : loc) (this : CrudModuleFields)
    (a : Action.ActionConfig) :
  a ∈ CrudModule.actions toUpperCase this ->
  lm_name (Action.loadingMutation a)
  <> CrudModule.m_setItems (CrudModule.mutations toUpperCase this) ->
  LoadingRegistered (Vuex.context (getModuleOf self this)) (Action.loadingMutation a).
Proof.
  intros Ha Hne. apply module_runs_loading; assumption.
Qed.

(** The five default mutations in the module of the receiver at [self]. *)
Lemma module_mutations (self : loc) (this : CrudModuleFields) :
  let ms := Vuex.mutations (getModuleOf self this) in
  let names := CrudModule.mutations toUpperCase this in
  ms !! CrudModule.m_deleteItem names
  = Some (CrudModule.boundTo self (CrudModule.deleteItemMutation toLowerCase))
  /\ ms !! CrudModule.m_updateItem names
     = Some (CrudModule.boundTo self (CrudModule.updateItemMutation toLowerCase))
  /\ ms !! CrudModule.m_addItem names
     = Some (CrudModule.boundTo self (CrudModule.addItem toLowerCase))
  /\ ms !! CrudModule.m_setCurrentItem names
     = Some (CrudModule.boundTo self (CrudModule.setCurrentItem toLowerCase)).
Proof.
  intros ms names. subst ms names.
  unfold getModuleOf, CrudModule.getModuleOf. cbn [Vuex.mutations].
  unfold CrudModule.buildMutations, CrudModule.mutations.
  cbn [CrudModule.m_setItems CrudModule.m_setCurrentItem CrudModule.m_addItem
       CrudModule.m_updateItem CrudModule.m_deleteItem].
  repeat split.
  - apply lookup_insert_eq.
  - rewrite lookup_insert_ne by names_differ. apply lookup_insert_eq.
  - rewrite !lookup_insert_ne by names_differ. apply lookup_insert_eq.
  - rewrite !lookup_insert_ne by names_differ. apply lookup_insert_eq.
Qed.

End BuilderState.

Section Generator.

Context {realm : Realm}.
Context (this : CrudModuleFields) (resource : string).

Let generate := CrudModule.generateAxiosRequestConfig this resource.

(** X3.  With a custom definition hook, the generator hands the default
    descriptor, the resource, the kind and the input to the hook and returns
    what the hook returns, or throws what it throws.  The hook is not
    consulted when the default
    generation throws (an unknown kind, an update whose input cannot be
    read): the exception leaves the generator. *)
Theorem custom_definition_hook (custom : CustomAPIDefinitionFunction)
    (action : CrudAction) (actionData : Value) :
  customAPIDefinition this = Some custom ->
  generate action actionData
  = bindR (CrudModule.generateAxiosRequestConfig
             (CrudModule.withCustomAPIDefinition None this) resource action actionData)
      (fun definition => custom definition resource action actionData).
Proof.
  intros Hcustom. unfold generate, CrudModule.generateAxiosRequestConfig.
  rewrite Hcustom. cbn [customAPIDefinition idAttribute CrudModule.withCustomAPIDefinition].
  destruct action; cbn [bindR]; try reflexivity.
  - destruct (ToString actionData); reflexivity.
  - destruct (ToString actionData); reflexivity.
  - destruct (getProp actionData (idAttribute this)) as [id|]; [|reflexivity].
    cbn [bindR]. destruct (ToString id); reflexivity.
Qed.

(** X4.  [isAction] holds of exactly the kinds whose default request is not
    a [GET]. *)
Theorem isAction_iff_not_GET (action : CrudAction) (actionData : Value)
    (definition : APIDefinition) :
  customAPIDefinition this = None ->
  generate action actionData = Ok definition ->
  (Action.isAction action = true <-> method definition <> "GET").
Proof.
  intros Hcustom. unfold generate, CrudModule.generateAxiosRequestConfig.
  rewrite Hcustom.
  destruct action; cbn [bindR Action.isAction];
    try (destruct (getProp actionData (idAttribute this)) as [id|]; cbn [bindR];
         [destruct (ToString id); cbn [bindR]|]);
    try (destruct (ToString actionData); cbn [bindR]);
    intros H'; inversion H'; subst; cbn [method]; split; intros H''; try discriminate;
    try reflexivity; try (exfalso; apply H''; reflexivity).
Qed.

End Generator.

Section UserDefaults.

#[local] Existing Instance Examples.realm.

Lemma default_state_is_null_witness :
  let this := Examples.instanceOf Examples.axiosOk in
  CrudModule.buildState Examples.toUpperCase Examples.toLowerCase this !! "users" = Some VNull.
Proof.
  intros this.
  apply (proj2 (default_state_is_null Examples.toUpperCase Examples.toLowerCase this)).
  - apply list_elem_of_here.
  - reflexivity.
Defined.

Lemma loading_registered_by_builder_witness :
  let this := Examples.instanceOf Examples.axiosOk in
  LoadingRegistered (Vuex.context (Examples.moduleOf this)) Examples.updating.
Proof.
  intros this.
  apply (loading_registered_by_builder Examples.toUpperCase Examples.toLowerCase 0%nat this
           (Examples.updateUser this)).
  - do 3 apply list_elem_of_further. apply list_elem_of_here.
  - cbn. discriminate.
Defined.

Lemma custom_definition_hook_witness :
  let paged : CustomAPIDefinitionFunction :=
    fun definition _ _ _ =>
      Ok {| method := method definition; url := url definition ++ "?page=1";
            params := params definition; data := data definition;
            dataMapper := dataMapper definition; stateMapper := stateMapper definition |} in
  let this :=
    CrudModule.withCustomAPIDefinition (Some paged) (Examples.instanceOf Examples.axiosOk) in
  url <$> (match CrudModule.generateAxiosRequestConfig this "user" fetchItems VUndefined with
           | Ok definition => Some definition
           | Throw _ => None
           end)
  = Some "/user?page=1".
Proof.
  intros paged this.
  rewrite (custom_definition_hook this "user" paged fetchItems VUndefined eq_refl).
  reflexivity.
Defined.

Lemma isAction_iff_not_GET_witness :
  Action.isAction deleteItem = true <-> "DELETE" <> "GET".
Proof.
  apply (isAction_iff_not_GET (Examples.instanceOf Examples.axiosOk) "user" deleteItem
           (VNum "1") (descriptor "DELETE" "/user/1" VUndefined)); reflexivity.
Defined.

End UserDefaults.


(** * The default actions on the store of their module *)

Section EndToEnd.

Context {realm : Realm}.
Context (toUpperCase toLowerCase : string -> string).
Context (self : loc) (this generator : CrudModuleFields) (w : World).

Let m := CrudModule.getModuleOf toUpperCase toLowerCase self this.
Let rn := resourceName this.
Let names := CrudModule.mutations toUpperCase this.
Let keys := CrudModule.states toLowerCase this.

(** The receiver of the module and the receiver of its generator are on the
    heap, and no custom definition hook is set. *)
Hypothesis Hself : heap w !! self = Some this.
Hypothesis Hgenerator : heap w !! generateAxiosRequestConfig_this this = Some generator.
Hypothesis Hcustom : customAPIDefinition generator = None.
Hypothesis Hcommits : commitState this = true.

(** The generator of the module gives the default descriptors. *)
Lemma module_generator (loading : LoadingMutation) (mutationName actionName : string)
    (kind : CrudAction) (actionData : Value) :
  let a := ActionFactory.create (CrudModule.config this) loading mutationName actionName kind in
  Action.generateAxiosRequestConfig a (heap w) (original (Action.resourceName a))
    (Action.actionType a) actionData
  = CrudModule.generateAxiosRequestConfig generator (original rn) kind actionData.
Proof.
  cbn [Action.generateAxiosRequestConfig ActionFactory.create CrudModule.config
       ActionFactory.c_generateAxiosRequestConfig Action.resourceName Action.actionType
       ActionFactory.c_resourceName].
  unfold CrudModule.generatorClosure. rewrite Hgenerator. reflexivity.
Qed.

(** X10.  The get action on the store of its module: it requests [GET
    /resource/input] without parameters and body, the input being converted
    to a string, stores the response under the current item and calls the
    success callback with it.  When the callback returns, the action returns
    the response.  When the callback throws, the current item stays stored,
    the error callback is called with what was thrown, and the action
    returns [undefined], or throws what the error callback throws.  The
    loading flag is set during the call and cleared after it. *)
Theorem get_action_stores_current_item (a : Action.ActionConfig) (actionData : Value)
    (shown : string) (res : AxiosResponse) :
  CrudModule.actions toUpperCase this !! 1%nat = Some a ->
  "SET_GETTING_" ++ toUpperCase (singular rn) <> CrudModule.m_setItems names ->
  ToString actionData = Ok shown ->
  let request := {| req_method := "GET"; req_url := "/" ++ original rn ++ "/" ++ shown;
                    req_params := VUndefined; req_data := VUndefined |} in
  axios this request = Ok res ->
  let loading (b : bool) :=
    EvCommit ("SET_GETTING_" ++ toUpperCase (singular rn))
      {| p_data := VBool b; p_actionData := None |} in
  let stored :=
    <[ "getting" ++ singular rn := VBool false ]>
      (<[ "current" ++ singular rn := res_data res ]>
         (<[ "getting" ++ singular rn := VBool true ]> (store w))) in
  let calls :=
    [ loading true;
      EvRequest request;
      EvCommit ("SET_CURRENT_" ++ toUpperCase (singular rn))
        {| p_data := res_data res; p_actionData := Some actionData |};
      EvCallback (handleActionSuccess this) getItem (res_data res) (original rn) ] in
  Action.execute a (Vuex.context m) actionData w
  = match handle (handleActionSuccess this) getItem (res_data res) (original rn) with
    | Ok _ => (Ok (res_data res), after w stored (calls ++ [loading false]))
    | Throw X =>
        (match handle (handleActionError this) getItem X (original rn) with
         | Ok _ => Ok VUndefined
         | Throw Y => Throw Y
         end,
         after w stored
           (calls ++ [EvCallback (handleActionError this) getItem X (original rn);
                      loading false]))
    end.
Proof.
  intros Ha Hne Hshown request Hax loading stored calls.
  cbn in Ha. inversion Ha as [Heq]. clear Ha.
  assert (Hin : a ∈ CrudModule.actions toUpperCase this).
  { subst a. apply list_elem_of_further, list_elem_of_here. }
  assert (Hne' : lm_name (Action.loadingMutation a) <> CrudModule.m_setItems names)
    by (subst a; exact Hne).
  pose proof (module_runs_loading toUpperCase toLowerCase self this a Hin Hne') as Hload.
  subst a.
  rewrite (execute_success_run _ (Vuex.context m) actionData w
             (descriptor "GET" ("/" ++ original rn ++ "/" ++ shown) VUndefined)
             res Hload).
  - cbn [Vuex.context commit Action.mutationName ActionFactory.create stateMapper dataMapper
         descriptor].
    unfold Vuex.commitOf.
    destruct (module_mutations toUpperCase toLowerCase self this) as (_ & _ & _ & Hset).
    match goal with
    | |- context [?ms !! ?k] =>
        replace (ms !! k) with (Some (CrudModule.boundTo self (CrudModule.setCurrentItem toLowerCase)))
          by (symmetry; exact Hset)
    end.
    unfold CrudModule.boundTo. rewrite Hself.
    cbn [CrudModule.setCurrentItem p_data Action.handleActionSuccess Action.handleActionError
         Action.actionType Action.resourceName ActionFactory.c_handleActionSuccess
         ActionFactory.c_handleActionError ActionFactory.c_resourceName CrudModule.config
         ActionFactory.create Action.loadingMutation lm_state lm_name].
    fold rn.
    destruct (handle (handleActionSuccess this) getItem (res_data res) (original rn))
      as [[]|X]; reflexivity.
  - rewrite module_generator.
    unfold CrudModule.generateAxiosRequestConfig. rewrite Hcustom.
    cbn [bindR]. rewrite Hshown. reflexivity.
  - exact Hax.
  - exact Hcommits.
Qed.



End EndToEnd.

(** * The template and the modules made from it *)

(** The generator reads two fields of its receiver. *)
Lemma generator_reads_two_fields {realm : Realm} (o o' : CrudModuleFields) (resource : string)
    (action : CrudAction) (actionData : Value) :
  idAttribute o' = idAttribute o ->
  customAPIDefinition o' = customAPIDefinition o ->
  CrudModule.generateAxiosRequestConfig o' resource action actionData
  = CrudModule.generateAxiosRequestConfig o resource action actionData.
Proof.
  intros Hid Hcustom. unfold CrudModule.generateAxiosRequestConfig.
  rewrite Hid, Hcustom. reflexivity.
Qed.

(** [execute] depends on the heap through the generator and the commits. *)
Lemma execute_heap_ext (cfg : Action.ActionConfig) (ctx : ActionContext) (actionData : Value)
    (st : State) (tr : list Event) (h h' : Heap) :
  Action.generateAxiosRequestConfig cfg h (original (Action.resourceName cfg))
    (Action.actionType cfg) actionData
  = Action.generateAxiosRequestConfig cfg h' (original (Action.resourceName cfg))
      (Action.actionType cfg) actionData ->
  (forall type payload s, commit ctx type payload h s = commit ctx type payload h' s) ->
  let r := Action.execute cfg ctx actionData {| store := st; heap := h; trace := tr |} in
  let r' := Action.execute cfg ctx actionData {| store := st; heap := h'; trace := tr |} in
  r.1 = r'.1 /\ store r.2 = store r'.2 /\ trace r.2 = trace r'.2.
Proof.
  intros Hgen Hcommit r r'. subst r r'. run_execute.
  rewrite Hcommit. destruct (commit ctx _ _ h' st) as [st1|e];
    cbn [heap store trace emit setStore fst snd]; [|auto].
  rewrite Hgen.
  destruct (Action.generateAxiosRequestConfig cfg h' _ _ _) as [def|e];
    cbn [heap store trace emit setStore fst snd]; [|auto].
  destruct (Action.axios cfg _) as [res|e]; cbn [heap store trace emit setStore fst snd];
    repeat (match goal with
            | |- context [commit ctx ?t ?p h ?s] => rewrite (Hcommit t p s)
            | |- context [match commit ?c ?t ?p ?h0 ?s with _ => _ end] =>
                destruct (commit c t p h0 s)
            | |- context [if Action.commitState ?c then _ else _] =>
                destruct (Action.commitState c)
            | |- context [match stateMapper ?d ?v with _ => _ end] =>
                destruct (stateMapper d v)
            | |- context [match dataMapper ?d ?v with _ => _ end] =>
                destruct (dataMapper d v)
            | |- context [match handle ?f ?a ?x ?r with _ => _ end] =>
                destruct (handle f a x r)
            end; cbn [heap store trace emit setStore fst snd]);
    auto.
Qed.

Section Template.

Context {realm : Realm}.
Context (toUpperCase toLowerCase : string -> string).
Context (newResourceName : string -> ResourceName).

Let create := CrudModuleFactory.create toUpperCase toLowerCase newResourceName.

(** The default actions in the actions of a module. *)
Lemma bound_actions (this : CrudModuleFields) (name : string) (a : Action.ActionConfig) :
  CrudModule.buildActions toUpperCase this !! name = Some (Action.BoundExecute a) ->
  a ∈ CrudModule.actions toUpperCase this.
Proof.
  unfold CrudModule.buildActions, CrudModule.assign, Action.actions.
  cbn [foldl CrudModule.actions]. intros H.
  apply lookup_union_Some_raw in H as [H | [_ H]].
  { rewrite lookup_fmap in H. destruct (additionalActions this !! name); discriminate H. }
  repeat (apply lookup_union_Some_raw in H as [H | [_ H]]);
    try (apply lookup_singleton_Some in H as [_ H]; inversion H; subst a;
         repeat first [apply list_elem_of_here | apply list_elem_of_further]).
  rewrite lookup_empty in H. discriminate H.
Qed.

(** The commits of a module read the receiver of the module, no other
    object. *)
Lemma commits_read_receiver (self : loc) (this : CrudModuleFields) (h h' : Heap) :
  h' !! self = h !! self ->
  forall type payload st,
    Vuex.commitOf (CrudModule.buildMutations toUpperCase toLowerCase self this) type payload h' st
    = Vuex.commitOf (CrudModule.buildMutations toUpperCase toLowerCase self this) type payload h st.
Proof.
  intros Hsame type payload st. unfold Vuex.commitOf, CrudModule.buildMutations.
  rewrite !lookup_insert.
  repeat case_decide; unfold CrudModule.boundTo; rewrite ?Hsame; try reflexivity.
  unfold CrudModule.assign, Action.mutations. cbn [foldl CrudModule.actions].
  destruct (_ !! type) as [handler|] eqn:Hlook; [|reflexivity].
  repeat (apply lookup_union_Some_raw in Hlook as [Hlook | [_ Hlook]]);
    try (apply lookup_singleton_Some in Hlook as [_ Hlook]; subst handler; reflexivity).
  rewrite lookup_empty in Hlook. discriminate Hlook.
Qed.

(** X13.  The generator of a module that a factory made reads the template
    when it is called: after [setIdAttribute] on the template, the default
    actions of the module generate their requests with the new id-attribute,
    while the mutations of the module still compare the id-attribute that
    the template had when the module was made. *)
Theorem template_idAttribute_reaches_generator
    (factory : CrudModuleFactory.CrudModuleFactory) (resource : string) (h h1 : Heap)
    (t : CrudModuleFields) (m : Vuex.ModuleTree) (value : string) :
  h !! CrudModuleFactory.instance factory = Some t ->
  generateAxiosRequestConfig_this t = CrudModuleFactory.instance factory ->
  create factory resource h = Some (m, h1) ->
  let h2 := CrudModule.setIdAttribute value (CrudModuleFactory.instance factory) h1 in
  (forall name a r action actionData,
     Vuex.actions m !! name = Some (Action.BoundExecute a) ->
     Action.generateAxiosRequestConfig a h2 r action actionData
     = CrudModule.generateAxiosRequestConfig (CrudModule.withIdAttribute value t)
         r action actionData)
  /\ (forall type payload st,
        Vuex.commitOf (Vuex.mutations m) type payload h2 st
        = Vuex.commitOf (Vuex.mutations m) type payload h1 st).
Proof.
  intros Ht Hthis Hcreate h2.
  unfold create in Hcreate.
  rewrite (create_allocates toUpperCase toLowerCase newResourceName factory resource h t Ht)
    in Hcreate.
  inversion Hcreate as [[Hm Hh1]]. clear Hcreate. subst m h1.
  assert (Hlt : (CrudModuleFactory.instance factory < length h)%nat)
    by (eapply lookup_lt_Some; exact Ht).
  split.
  - intros name a r action actionData Ha.
    cbn [Vuex.actions CrudModule.getModuleOf] in Ha.
    apply bound_actions in Ha. unfold CrudModule.actions in Ha.
    assert (Hclosure : Action.generateAxiosRequestConfig a
                       = CrudModule.generatorClosure (CrudModuleFactory.instance factory)).
    { repeat (apply elem_of_cons in Ha; destruct Ha as [Ha | Ha]; [rewrite Ha|]);
        [| | | | | apply elem_of_nil in Ha; destruct Ha];
        cbn; rewrite Hthis; reflexivity. }
    rewrite Hclosure. unfold CrudModule.generatorClosure.
    subst h2. unfold CrudModule.setIdAttribute, CrudModule.assignField.
    rewrite list_lookup_alter_eq, lookup_app_l_Some with (x := t) by exact Ht.
    reflexivity.
  - intros type payload st. cbn [Vuex.mutations CrudModule.getModuleOf].
    apply commits_read_receiver.
    subst h2. unfold CrudModule.setIdAttribute, CrudModule.assignField.
    apply list_lookup_alter_ne. lia.
Qed.

(** X14.  The other fields of the template do not reach a module that the
    factory made: after a write to the template that changes neither the
    id-attribute nor the custom definition hook (the commit-state flag, the
    HTTP client, a callback), every default action of the module ends with
    the same result, the same store and the same calls as before. *)
Theorem template_write_does_not_reach_module
    (factory : CrudModuleFactory.CrudModuleFactory) (resource : string) (h h1 : Heap)
    (t : CrudModuleFields) (m : Vuex.ModuleTree)
    (update : CrudModuleFields -> CrudModuleFields)
    (name : string) (a : Action.ActionConfig) (actionData : Value)
    (st : State) (tr : list Event) :
  h !! CrudModuleFactory.instance factory = Some t ->
  create factory resource h = Some (m, h1) ->
  (forall o, idAttribute (update o) = idAttribute o) ->
  (forall o, customAPIDefinition (update o) = customAPIDefinition o) ->
  Vuex.actions m !! name = Some (Action.BoundExecute a) ->
  let h2 := CrudModule.assignField update (CrudModuleFactory.instance factory) h1 in
  let before := Action.execute a (Vuex.context m) actionData
                  {| store := st; heap := h1; trace := tr |} in
  let after := Action.execute a (Vuex.context m) actionData
                 {| store := st; heap := h2; trace := tr |} in
  after.1 = before.1 /\ store after.2 = store before.2 /\ trace after.2 = trace before.2.
Proof.
  intros Ht Hcreate Hid Hcustom Ha h2 before after. subst before after.
  unfold create in Hcreate.
  rewrite (create_allocates toUpperCase toLowerCase newResourceName factory resource h t Ht)
    in Hcreate.
  inversion Hcreate as [[Hm Hh1]]. clear Hcreate. subst m h1.
  assert (Hlt : (CrudModuleFactory.instance factory < length h)%nat)
    by (eapply lookup_lt_Some; exact Ht).
  cbn [Vuex.actions CrudModule.getModuleOf] in Ha.
  apply bound_actions in Ha. unfold CrudModule.actions in Ha.
  apply execute_heap_ext.
  - assert (Hclosure : exists g, Action.generateAxiosRequestConfig a
                                 = CrudModule.generatorClosure g).
    { repeat (apply elem_of_cons in Ha; destruct Ha as [Ha | Ha]; [rewrite Ha|]);
        [| | | | | apply elem_of_nil in Ha; destruct Ha];
        eexists; reflexivity. }
    destruct Hclosure as [g ->]. unfold CrudModule.generatorClosure.
    subst h2. unfold CrudModule.assignField. rewrite list_lookup_alter.
    case_decide; [subst g|reflexivity].
    rewrite (lookup_app_l_Some h _ _ t Ht). cbn [fmap option_fmap option_map].
    apply generator_reads_two_fields; [apply Hid | apply Hcustom].
  - intros type payload s. cbn [Vuex.context commit Vuex.mutations CrudModule.getModuleOf].
    apply commits_read_receiver.
    subst h2. unfold CrudModule.assignField.
    apply list_lookup_alter_ne. lia.
Qed.

End Template.

Section Constructor.

Context {realm : Realm}.
Context (toUpperCase toLowerCase : string -> string).
Context (newResourceName : string -> ResourceName).


End Constructor.

(** The default actions on the module for [user]. *)

Section UserActions.

#[local] Existing Instance Examples.realm.

Lemma get_action_stores_current_item_witness :
  let this := Examples.instanceOf Examples.axiosOk in
  let w := Examples.registered (Examples.heapOf Examples.axiosOk) (Examples.moduleOf this) in
  Action.execute (Examples.getUser this) (Vuex.context (Examples.moduleOf this)) (VNum "1") w
  = (Ok (Examples.item 9 1 "b"),
     after w (<[ "gettingUser" := VBool false ]>
                (<[ "currentUser" := Examples.item 9 1 "b" ]>
                   (<[ "gettingUser" := VBool true ]> (store w))))
       [ loadingEvent Examples.getting true;
         EvRequest Examples.getRequest;
         commitEvent "SET_CURRENT_USER" (Examples.item 9 1 "b") (VNum "1");
         EvCallback Examples.onSuccess getItem (Examples.item 9 1 "b") "user";
         loadingEvent Examples.getting false ]).
Proof.
  intros this w.
  unfold Examples.moduleOf.
  rewrite (get_action_stores_current_item Examples.toUpperCase Examples.toLowerCase 0%nat
             this this w eq_refl eq_refl eq_refl eq_refl (Examples.getUser this) (VNum "1")
             "1" {| res_data := Examples.item 9 1 "b" |}).
  - reflexivity.
  - reflexivity.
  - cbn. discriminate.
  - reflexivity.
  - reflexivity.
Defined.

(** The same with a success callback that throws: the current item is
    stored, and the action returns [undefined]. *)
Lemma get_action_with_failing_callback :
  let this := CrudModule.withHandleActionSuccess Examples.failing
                (Examples.instanceOf Examples.axiosOk) in
  let h := CrudModule.onActionSuccess Examples.failing 0%nat
             (Examples.heapOf Examples.axiosOk) in
  let w := Examples.registered h (Examples.moduleOf this) in
  let r := Action.execute (Examples.getUser this) (Vuex.context (Examples.moduleOf this))
             (VNum "1") w in
  r.1 = Ok VUndefined
  /\ readState (store r.2) "currentUser" = Examples.item 9 1 "b"
  /\ readState (store r.2) "gettingUser" = VBool false.
Proof. repeat split. Qed.



End UserActions.

Section UserTemplate.

#[local] Existing Instance Examples.realm.

(** A module for [user] made by the factory of the builder, and the template
    written to afterwards. *)

Lemma template_idAttribute_reaches_generator_witness :
  let t := Examples.instanceOf Examples.axiosOk in
  let copy := CrudModule.withResourceName (Examples.newResourceName "user") t in
  let h1 := (Examples.heapOf Examples.axiosOk ++ [copy])%list in
  let h2 := CrudModule.setIdAttribute "_id" 0%nat h1 in
  Action.generateAxiosRequestConfig (Examples.updateUser copy) h2 "user" updateItem
    (VObj 5 [("id", VNum "1"); ("_id", VStr "x")])
  = Ok (descriptor "PUT" "/user/x" (VObj 5 [("id", VNum "1"); ("_id", VStr "x")]))
  /\ Vuex.commitOf (Vuex.mutations (CrudModule.getModuleOf Examples.toUpperCase
                                       Examples.toLowerCase 1%nat copy))
       "UPDATE_USER"
       {| p_data := VObj 5 [("id", VNum "1"); ("_id", VStr "x")]; p_actionData := None |}
       h2 {[ "users" := VArr [VObj 1 [("id", VNum "1"); ("_id", VStr "y")]] ]}
     = Ok {[ "users" := VArr [VObj 5 [("id", VNum "1"); ("_id", VStr "x")]] ]}.
Proof.
  intros t copy h1 h2.
  destruct (template_idAttribute_reaches_generator Examples.toUpperCase Examples.toLowerCase
              Examples.newResourceName (CrudModuleFactory.getFactory 0) "user"
              (Examples.heapOf Examples.axiosOk) h1 t
              (CrudModule.getModuleOf Examples.toUpperCase Examples.toLowerCase 1%nat copy)
              "_id" eq_refl eq_refl eq_refl) as [Hgen Hcommit].
  split.
  - rewrite (Hgen "updateUser" (Examples.updateUser copy) "user" updateItem _ eq_refl).
    reflexivity.
  - fold h1 h2 in Hcommit. rewrite Hcommit. reflexivity.
Defined.

Lemma template_write_does_not_reach_module_witness :
  let t := Examples.instanceOf Examples.axiosOk in
  let copy := CrudModule.withResourceName (Examples.newResourceName "user") t in
  let m := CrudModule.getModuleOf Examples.toUpperCase Examples.toLowerCase 1%nat copy in
  let h1 := (Examples.heapOf Examples.axiosOk ++ [copy])%list in
  let h2 := CrudModule.setCommitState false 0%nat h1 in
  readState
    (store (Action.execute (Examples.createUser copy) (Vuex.context m) (Examples.item 5 1 "b")
              (worldOf (Vuex.state m) h2)).2) "users"
  = VArr [Examples.item 9 1 "b"].
Proof.
  intros t copy m h1 h2.
  destruct (template_write_does_not_reach_module Examples.toUpperCase Examples.toLowerCase
              Examples.newResourceName (CrudModuleFactory.getFactory 0) "user"
              (Examples.heapOf Examples.axiosOk) h1 t m (CrudModule.withCommitState false)
              "createUser" (Examples.createUser copy) (Examples.item 5 1 "b")
              (Vuex.state m) [] eq_refl eq_refl (fun _ => eq_refl) (fun _ => eq_refl) eq_refl)
    as (_ & Hstore & _).
  etransitivity; [exact (f_equal (fun s => readState s "users") Hstore) | reflexivity].
Defined.

End UserTemplate.

(** * The loading flag around a run *)

(** X16.  Every run of [execute] starts with the commit of the loading flag
    with [true], whatever the store, the generator and the HTTP call do; and
    every run in which that commit completes and the descriptor is generated
    ends with the commit of the loading flag with [false], whether the HTTP
    call, the mappers, the callbacks, the primary commit or the last commit
    itself fail or not. *)
Theorem loading_commits_bracket_the_run (cfg : Action.ActionConfig) (ctx : ActionContext)
    (actionData : Value) (w : World) :
  let lm := Action.loadingMutation cfg in
  let w' := (Action.execute cfg ctx actionData w).2 in
  (exists evs, trace w' = (trace w ++ loadingEvent lm true :: evs)%list)
  /\ forall st def,
       commit ctx (lm_name lm) (Action.loadingPayload true) (heap w) (store w) = Ok st ->
       Action.generateAxiosRequestConfig cfg (heap w) (original (Action.resourceName cfg))
         (Action.actionType cfg) actionData = Ok def ->
       exists evs, trace w' = (trace w ++ evs ++ [loadingEvent lm false])%list.
Proof.
  intros lm w'. split.
  - apply execute_starts_with_loading.
  - intros st def Hfirst Hgen.
    apply (execute_releases_after_generation cfg ctx actionData w def st Hfirst Hgen).
Qed.

Section UserLoading.

#[local] Existing Instance Examples.realm.

Lemma loading_commits_bracket_the_run_witness :
  let this := Examples.instanceOf Examples.axiosDown in
  let w := Examples.registered (Examples.heapOf Examples.axiosDown) (Examples.moduleOf this) in
  exists evs,
    trace (Action.execute (Examples.createUser this) (Vuex.context (Examples.moduleOf this))
             (Examples.item 5 1 "b") w).2
    = (trace w ++ evs ++ [loadingEvent Examples.creating false])%list.
Proof.
  intros this w.
  apply (proj2 (loading_commits_bracket_the_run (Examples.createUser this)
                  (Vuex.context (Examples.moduleOf this)) (Examples.item 5 1 "b") w)
           (<[ "creatingUser" := VBool true ]> (store w)) Examples.postUser);
    reflexivity.
Defined.

End UserLoading.
